(** * solapi-nodejs: request finalizers and the service facade

    A shallow embedding of the request/response shaping layer of the
    SOLAPI client: the blacklist request finalizer
    (requests/iam/getBlacksRequest.ts), the Kakao channel list response and the
    methods of [SolapiMessageService] (solapi.ts) that talk to the
    transport collaborator [defaultFetcher]. *)

From Stdlib Require Import String Ascii List ZArith Bool Lia.
Import ListNotations.
Open Scope string_scope.
Set Warnings "-register-all".

(** ** JavaScript values shared by the embedded files *)

(** A JavaScript [number] as it is used here: integral counters and limits
    decoded from JSON, compared with [===]. *)
Definition number := Z.

(** [string | Date]. *)
Inductive StringOrDate (Date : Type) : Type :=
| OfString (s : string)
| OfDate (d : Date).
Arguments OfString {Date} s.
Arguments OfDate {Date} d.

(** [a ?? b] on an optional value: [undefined] is [None]. *)
Definition nullish {A : Type} (a : option A) (b : A) : A :=
  match a with
  | Some v => v
  | None => b
  end.
Infix "??" := nullish (at level 45, left associativity).

(** [x != undefined]. *)
Definition defined {A : Type} (a : option A) : bool :=
  match a with
  | Some _ => true
  | None => false
  end.

(** A dynamically typed view of request objects, used to say which kinds
    of value an object holds. A property that is [undefined] is left out,
    as the query-string serializer leaves it out. *)
Inductive Value (Date : Type) : Type :=
| VString (s : string)
| VNumber (n : number)
| VDate (d : Date)
| VObject (fields : list (string * Value Date)).
Arguments VString {Date} s.
Arguments VNumber {Date} n.
Arguments VDate {Date} d.
Arguments VObject {Date} fields.

Fixpoint containsDate {Date : Type} (v : Value Date) : bool :=
  match v with
  | VString _ => false
  | VNumber _ => false
  | VDate _ => true
  | VObject fields =>
      (fix any (fs : list (string * Value Date)) : bool :=
         match fs with
         | [] => false
         | (_, w) :: rest => containsDate w || any rest
         end) fields
  end.

(** One property of an object literal, present only when it is defined. *)
Definition prop {Date A : Type} (key : string) (inj : A -> Value Date)
    (a : option A) : list (string * Value Date) :=
  match a with
  | Some v => [(key, inj v)]
  | None => []
  end.

(** ** requests/messageRequest.ts: [DatePayloadType] *)

(** Modelled from the spec: [DatePayloadType] is declared in
    requests/messageRequest.ts, which is not among the sources; section 3
    of the specification gives the range structure as
    [{gte?: string, lte?: string}]. *)
Module DatePayloadType.
Record t : Type := mk { gte : option string; lte : option string }.

(** The object literal [{}]. *)
Definition empty : t := mk None None.

(** [Object.assign(target, source)] at this shape: every property the
    source defines overwrites the target's, the others are kept. *)
Definition Object_assign (target source : t) : t :=
  mk (match gte source with Some v => Some v | None => gte target end)
     (match lte source with Some v => Some v | None => lte target end).

Definition hasKey (key : string) (o : t) : bool :=
  if String.eqb key "gte" then defined (gte o)
  else if String.eqb key "lte" then defined (lte o)
  else false.

Definition toValue {Date : Type} (o : t) : Value Date :=
  VObject (prop "gte" VString (gte o) ++ prop "lte" VString (lte o)).
End DatePayloadType.

(** ** requests/iam/getBlacksRequest.ts *)

Module GetBlacksRequest.
Record t (Date : Type) : Type := mk {
  senderNumber : option string;
  startKey : option string;
  limit : option number;
  startDate : option (StringOrDate Date);
  endDate : option (StringOrDate Date)
}.
Arguments mk {Date}.
Arguments senderNumber {Date}.
Arguments startKey {Date}.
Arguments limit {Date}.
Arguments startDate {Date}.
Arguments endDate {Date}.

Definition dateValue {Date : Type} (d : StringOrDate Date) : Value Date :=
  match d with
  | OfString s => VString s
  | OfDate d => VDate d
  end.

Definition toValue {Date : Type} (r : t Date) : Value Date :=
  VObject (prop "senderNumber" VString (senderNumber r)
           ++ prop "startKey" VString (startKey r)
           ++ prop "limit" VNumber (limit r)
           ++ prop "startDate" dateValue (startDate r)
           ++ prop "endDate" dateValue (endDate r)).
End GetBlacksRequest.

Module GetBlacksFinalizeRequest.
Record t : Type := mk {
  type : string;
  senderNumber : option string;
  startKey : option string;
  limit : option number;
  dateCreated : option DatePayloadType.t
}.

Definition set_type (this : t) (v : string) : t :=
  mk v (senderNumber this) (startKey this) (limit this) (dateCreated this).
Definition set_senderNumber (this : t) (v : option string) : t :=
  mk (type this) v (startKey this) (limit this) (dateCreated this).
Definition set_startKey (this : t) (v : option string) : t :=
  mk (type this) (senderNumber this) v (limit this) (dateCreated this).
Definition set_limit (this : t) (v : option number) : t :=
  mk (type this) (senderNumber this) (startKey this) v (dateCreated this).
Definition set_dateCreated (this : t) (v : DatePayloadType.t) : t :=
  mk (type this) (senderNumber this) (startKey this) (limit this) (Some v).

(** The instance before the constructor body runs: the field
    initializer [type = 'DENIAL'], every other field undefined. *)
Definition fields : t := mk "DENIAL" None None None None.

Section Constructor.
Context {Date : Type}.
Variable formatWithTransfer : StringOrDate Date -> string.

Definition constructor (parameter : GetBlacksRequest.t Date) : t :=
  let this := fields in
  let this := set_type this "DENIAL" in
  let this := set_senderNumber this (GetBlacksRequest.senderNumber parameter) in
  let this := set_startKey this (GetBlacksRequest.startKey parameter) in
  let this := set_limit this (GetBlacksRequest.limit parameter) in
  let this :=
    match GetBlacksRequest.startDate parameter with
    | Some startDate =>
        set_dateCreated this
          (DatePayloadType.Object_assign
             (dateCreated this ?? DatePayloadType.empty)
             (DatePayloadType.mk (Some (formatWithTransfer startDate)) None))
    | None => this
    end in
  let this :=
    match GetBlacksRequest.endDate parameter with
    | Some endDate =>
        set_dateCreated this
          (DatePayloadType.Object_assign
             (dateCreated this ?? DatePayloadType.empty)
             (DatePayloadType.mk None (Some (formatWithTransfer endDate))))
    | None => this
    end in
  this.
End Constructor.

Definition toValue {Date : Type} (r : t) : Value Date :=
  VObject ([("type", VString (type r))]
           ++ prop "senderNumber" VString (senderNumber r)
           ++ prop "startKey" VString (startKey r)
           ++ prop "limit" VNumber (limit r)
           ++ prop "dateCreated" DatePayloadType.toValue (dateCreated r)).
End GetBlacksFinalizeRequest.

(** ** The request objects as they are at run time

    A request is an object a caller hands over; its declared type is not
    checked when the program runs. The constructor of
    [GetBlacksFinalizeRequest] is given a second time on such objects,
    statement by statement, to say which kinds of value end up in the
    object it builds. *)

Module RequestObject.
Section Objects.
Context {Date : Type}.

Definition t : Type := list (string * Value Date).

(** [object.key]; [None] is undefined. *)
Fixpoint get (key : string) (object : t) : option (Value Date) :=
  match object with
  | [] => None
  | (k, v) :: rest => if String.eqb k key then Some v else get key rest
  end.

Fixpoint replace (key : string) (value : Value Date) (object : t) : t :=
  match object with
  | [] => []
  | (k, v) :: rest =>
      if String.eqb k key then (k, value) :: rest
      else (k, v) :: replace key value rest
  end.

Fixpoint delete (key : string) (object : t) : t :=
  match object with
  | [] => []
  | (k, v) :: rest =>
      if String.eqb k key then delete key rest else (k, v) :: delete key rest
  end.

(** [object.key = value]: a property that exists keeps its place, a new
    one comes last; a property set to undefined is left out. *)
Definition set (key : string) (value : option (Value Date)) (object : t) : t :=
  match value with
  | Some v =>
      if defined (get key object) then replace key v object
      else (object ++ [(key, v)])%list
  | None => delete key object
  end.

(** [Object.assign(target, source)]: the properties of the source are set
    on the target, in order. *)
Definition Object_assign (target : Value Date) (source : t) : Value Date :=
  match target with
  | VObject fields =>
      VObject (fold_left (fun fields property =>
                            set (fst property) (Some (snd property)) fields)
                         source fields)
  | other => other
  end.

(** The value at a path of keys. *)
Fixpoint getPath (path : list string) (value : Value Date)
    : option (Value Date) :=
  match path with
  | [] => Some value
  | key :: rest =>
      match value with
      | VObject fields =>
          match get key fields with
          | Some inner => getPath rest inner
          | None => None
          end
      | _ => None
      end
  end.

(** The properties named by [keys] hold no Date: what the declared type
    of a raw request promises of the fields that are not dates. *)
Definition holdNoDate (keys : list string) (object : t) : bool :=
  forallb (fun key =>
             match get key object with
             | Some v => negb (containsDate v)
             | None => true
             end) keys.

Section Finalizers.
Variable formatWithTransfer : Value Date -> string.

(** requests/iam/getBlacksRequest.ts: [new GetBlacksFinalizeRequest(parameter)]. *)
Definition newGetBlacksFinalizeRequest (parameter : t) : t :=
  let this := [("type", VString "DENIAL")] in
  let this := set "type" (Some (VString "DENIAL")) this in
  let this := set "senderNumber" (get "senderNumber" parameter) this in
  let this := set "startKey" (get "startKey" parameter) this in
  let this := set "limit" (get "limit" parameter) this in
  let this :=
    match get "startDate" parameter with
    | Some startDate =>
        set "dateCreated"
          (Some (Object_assign (get "dateCreated" this ?? VObject [])
                   [("gte", VString (formatWithTransfer startDate))]))
          this
    | None => this
    end in
  let this :=
    match get "endDate" parameter with
    | Some endDate =>
        set "dateCreated"
          (Some (Object_assign (get "dateCreated" this ?? VObject [])
                   [("lte", VString (formatWithTransfer endDate))]))
          this
    | None => this
    end in
  this.

(** Modelled from the spec: the finalizers of the other endpoint families
    (groups, messages, statistics, block groups, block numbers, Kakao
    channels, Kakao templates) are not among the sources. Sections 2, 3
    and 4.2 of the specification: a finalizer is a pure transformation of
    the raw request; a missing discriminant is defaulted to a constant;
    the fields of the raw request are kept, absent ones staying absent;
    [startDate] and [endDate], when present, are normalised and populate
    the [gte] and [lte] keys of one range object, built incrementally. A
    family is its defaults, the fields it carries over and the name of
    its range object. *)
Record Family : Type := mkFamily {
  defaults : t;
  carried : list string;
  range : string
}.

Definition finalize (family : Family) (raw : t) : t :=
  let this := defaults family in
  let this :=
    fold_left (fun this key => set key (get key raw) this)
              (carried family) this in
  let this :=
    match get "startDate" raw with
    | Some startDate =>
        set (range family)
          (Some (Object_assign (get (range family) this ?? VObject [])
                   [("gte", VString (formatWithTransfer startDate))]))
          this
    | None => this
    end in
  let this :=
    match get "endDate" raw with
    | Some endDate =>
        set (range family)
          (Some (Object_assign (get (range family) this ?? VObject [])
                   [("lte", VString (formatWithTransfer endDate))]))
          this
    | None => this
    end in
  this.

(** The blacklist family in the words of the specification. *)
Definition blacklist : Family :=
  mkFamily [("type", VString "DENIAL")]
           ["senderNumber"; "startKey"; "limit"] "dateCreated".

End Finalizers.
End Objects.

(** The properties of a value that is an object. *)
Definition fieldsOf {Date : Type} (value : Value Date) : t :=
  match value with
  | VObject fields => fields
  | _ => []
  end.

End RequestObject.


(** ** lib/stringDateTrasnfer.ts with date-fns [formatISO] *)

Module StringDateTransfer.

(** Modelled from the spec: lib/stringDateTrasnfer.ts ([stringDateTransfer],
    [formatWithTransfer]) and the date library behind it are not among the
    sources. Section 4.1 of the specification: the input is a string or a
    Date; the output is an ISO-8601 date-time string with offset, second
    precision and no fractional seconds; a string is parsed into a Date and
    round-tripped through the same formatter; no timezone conversion is
    performed and the caller's offset is preserved. A Date is therefore the
    wall-clock reading together with the offset it is expressed in. The
    specification assumes every string is parseable; a string that is not
    becomes [InvalidDate] here. *)
Record DateTime : Type := mk {
  year : nat;
  month : nat;
  day : nat;
  hours : nat;
  minutes : nat;
  seconds : nat;
  west : bool;
  offsetHours : nat;
  offsetMinutes : nat
}.

Inductive Date : Type :=
| Valid (d : DateTime)
| InvalidDate.

Definition digit (c : ascii) : option nat :=
  let n := nat_of_ascii c in
  if (48 <=? n)%nat && (n <=? 57)%nat then Some (n - 48)%nat else None.

(** Reads exactly [n] decimal digits. *)
Fixpoint digits (n acc : nat) (s : string) : option (nat * string) :=
  match n with
  | O => Some (acc, s)
  | S n' =>
      match s with
      | String c rest =>
          match digit c with
          | Some d => digits n' (10 * acc + d)%nat rest
          | None => None
          end
      | EmptyString => None
      end
  end.

Definition expect (c : ascii) (s : string) : option string :=
  match s with
  | String c' rest => if Ascii.eqb c c' then Some rest else None
  | EmptyString => None
  end.

Definition sign (s : string) : option (bool * string) :=
  match s with
  | String c rest =>
      if Ascii.eqb c "+" then Some (false, rest)
      else if Ascii.eqb c "-" then Some (true, rest)
      else None
  | EmptyString => None
  end.

Definition andThen {A B : Type} (a : option A) (k : A -> option B) : option B :=
  match a with
  | Some v => k v
  | None => None
  end.

Definition inRange (d : DateTime) : bool :=
  (1 <=? month d)%nat && (month d <=? 12)%nat
  && (1 <=? day d)%nat && (day d <=? 31)%nat
  && (hours d <=? 23)%nat && (minutes d <=? 59)%nat && (seconds d <=? 59)%nat
  && (offsetHours d <=? 23)%nat && (offsetMinutes d <=? 59)%nat.

(** [YYYY-MM-DDTHH:MM:SS] followed by [+HH:MM] or [-HH:MM]. *)
Definition parse (s : string) : option DateTime :=
  andThen (digits 4 0 s) (fun '(y, s) =>
  andThen (expect "-" s) (fun s =>
  andThen (digits 2 0 s) (fun '(mo, s) =>
  andThen (expect "-" s) (fun s =>
  andThen (digits 2 0 s) (fun '(d, s) =>
  andThen (expect "T" s) (fun s =>
  andThen (digits 2 0 s) (fun '(h, s) =>
  andThen (expect ":" s) (fun s =>
  andThen (digits 2 0 s) (fun '(mi, s) =>
  andThen (expect ":" s) (fun s =>
  andThen (digits 2 0 s) (fun '(se, s) =>
  andThen (sign s) (fun '(w, s) =>
  andThen (digits 2 0 s) (fun '(oh, s) =>
  andThen (expect ":" s) (fun s =>
  andThen (digits 2 0 s) (fun '(om, s) =>
  match s with
  | EmptyString =>
      let d := mk y mo d h mi se w oh om in
      if inRange d then Some d else None
  | String _ _ => None
  end))))))))))))))).

Definition digitChar (n : nat) : ascii := ascii_of_nat (48 + n mod 10).

Definition pad2 (n : nat) : string :=
  String (digitChar (n / 10)) (String (digitChar n) EmptyString).

Definition pad4 (n : nat) : string :=
  String (digitChar (n / 1000)) (String (digitChar (n / 100)) (pad2 n)).

Definition formatISO (date : Date) : string :=
  match date with
  | Valid d =>
      pad4 (year d) ++ "-" ++ pad2 (month d) ++ "-" ++ pad2 (day d)
      ++ "T" ++ pad2 (hours d) ++ ":" ++ pad2 (minutes d) ++ ":" ++ pad2 (seconds d)
      ++ (if west d then "-" else "+")
      ++ pad2 (offsetHours d) ++ ":" ++ pad2 (offsetMinutes d)
  | InvalidDate => "Invalid Date"
  end.

Definition stringDateTransfer (value : StringOrDate Date) : Date :=
  match value with
  | OfString s =>
      match parse s with
      | Some d => Valid d
      | None => InvalidDate
      end
  | OfDate d => d
  end.

Definition formatWithTransfer (value : StringOrDate Date) : string :=
  formatISO (stringDateTransfer value).

End StringDateTransfer.

(** ** responses/kakao/getKakaoChannelsResponse.ts *)

Module GetKakaoChannelsResponse.
Record t (KakaoChannelInterface : Type) : Type := mk {
  limit : number;
  startKey : string;
  nextKey : option string;
  channelList : list KakaoChannelInterface
}.
Arguments mk {KakaoChannelInterface}.
Arguments limit {KakaoChannelInterface}.
Arguments startKey {KakaoChannelInterface}.
Arguments nextKey {KakaoChannelInterface}.
Arguments channelList {KakaoChannelInterface}.
End GetKakaoChannelsResponse.

Module GetKakaoChannelsFinalizeResponse.
Record t (KakaoChannel : Type) : Type := mk {
  limit : number;
  startKey : string;
  nextKey : option string;
  channelList : list KakaoChannel
}.
Arguments mk {KakaoChannel}.
Arguments limit {KakaoChannel}.
Arguments startKey {KakaoChannel}.
Arguments nextKey {KakaoChannel}.
Arguments channelList {KakaoChannel}.
End GetKakaoChannelsFinalizeResponse.

(** ** Shapes that solapi.ts builds or reads field by field *)

(** [GroupId] of types/commonTypes.ts: an opaque string. *)
Definition GroupId := string.

(** The options object given to [qs.stringify]. *)
Module StringifyOptions.
Record t : Type := mk { indices : option bool; addQueryPrefix : option bool }.
End StringifyOptions.

(** [defaultAgent] of requests/messageRequest.ts, as [createGroup]
    destructures it. *)
Module DefaultAgent.
Record t : Type := mk { sdkVersion : string; osPlatform : string }.
End DefaultAgent.

(** The object literal [createGroup] sends. *)
Module CreateGroupRequest.
Record t : Type := mk {
  sdkVersion : string;
  osPlatform : string;
  allowDuplicates : bool;
  appId : option string
}.
End CreateGroupRequest.

(** The object literal [reserveGroup] sends. *)
Module ScheduledDateSendingRequest.
Record t : Type := mk { scheduledDate : string }.
End ScheduledDateSendingRequest.

(** [SendRequestConfig] of requests/sendRequestConfig.ts: the four optional
    properties [send] reads. *)
Module SendRequestConfig.
Record t (Date : Type) : Type := mk {
  allowDuplicates : option bool;
  appId : option string;
  scheduledDate : option (StringOrDate Date);
  showMessageList : option bool
}.
Arguments mk {Date}.
Arguments allowDuplicates {Date}.
Arguments appId {Date}.
Arguments scheduledDate {Date}.
Arguments showMessageList {Date}.
End SendRequestConfig.

Module RequestConfig.
Record t : Type := mk { method : string; url : string }.
End RequestConfig.

Module AuthInfo.
Record t : Type := mk { apiKey : string; apiSecret : string }.
End AuthInfo.

(** ** The collaborators of solapi.ts

    The classes, helpers and libraries that solapi.ts imports and that are
    not among the sources, taken as parameters: their types are abstract
    and their functions arbitrary. *)
Class External : Type := {
  (* models/message.ts *)
  MessageParameter : Type;
  Message : Type;
  newMessage : MessageParameter -> Message;
  (* lib/stringDateTrasnfer.ts and date-fns; [formatISO] throws a
     RangeError on a Date that is not valid, which is [None] here *)
  Date : Type;
  stringDateTransfer : StringOrDate Date -> Date;
  formatISO : Date -> option string;
  formatWithTransfer : StringOrDate Date -> string;
  (* requests/messageRequest.ts *)
  MultipleDetailMessageSendingRequest : Type;
  newMultipleDetailMessageSendingRequest :
    list Message -> option bool -> option string ->
    option (StringOrDate Date) -> option bool ->
    MultipleDetailMessageSendingRequest;
  GroupMessageAddRequest : Type;
  newGroupMessageAddRequest : list Message -> GroupMessageAddRequest;
  defaultAgent : DefaultAgent.t;
  (* responses/messageResponses.ts, responses/sendManyDetailResponse.ts,
     responses/iam/getBlacksResponse.ts *)
  GroupMessageResponse : Type;
  groupId : GroupMessageResponse -> GroupId;
  AddMessageResponse : Type;
  FailedMessage : Type;
  Count : Type;
  total : Count -> number;
  registeredFailed : Count -> number;
  GroupInfo : Type;
  count : GroupInfo -> Count;
  DetailGroupMessageResponse : Type;
  groupInfo : DetailGroupMessageResponse -> GroupInfo;
  failedMessageList : DetailGroupMessageResponse -> list FailedMessage;
  GetBlacksResponse : Type;
  (* models/kakao/kakaoChannel.ts, requests/kakao/getKakaoChannelsRequest.ts *)
  KakaoChannelInterface : Type;
  KakaoChannel : Type;
  newKakaoChannel : KakaoChannelInterface -> KakaoChannel;
  GetKakaoChannelsRequest : Type;
  GetKakaoChannelsFinalizeRequest : Type;
  emptyGetKakaoChannelsFinalizeRequest : GetKakaoChannelsFinalizeRequest;
  newGetKakaoChannelsFinalizeRequest :
    GetKakaoChannelsRequest -> GetKakaoChannelsFinalizeRequest;
  (* qs *)
  qs_stringify : forall A : Type, A -> StringifyOptions.t -> string;
  (* what lib/defaultFetcher.ts rejects with *)
  FetchError : Type
}.

Section Facade.
Context {ext : External}.

(** *** Errors and outcomes *)

(** errors/defaultError.ts as solapi.ts uses it, the RangeError that
    [formatISO] throws on a Date that is not valid, and the rejection of
    the transport; no method catches any of them. *)
Inductive Error : Type :=
| BadRequestError (message : string)
| MessageNotReceivedError (failedMessageList : list FailedMessage)
| RangeError
| Rejected (e : FetchError).

(** How the body of an [async] method completes, which is how the promise
    the method returned settles: [Returned] fulfils it, [Thrown] rejects
    it. The log that comes with a completion tells when: the promises the
    embedded methods wait for are transport calls, so a failure with the
    log as it was is decided before the body first waits, and a failure
    after a wait comes with the calls waited for. What the caller sees at
    the call itself is an [Invocation], below. *)
Inductive Completion (A : Type) : Type :=
| Returned (a : A)
| Thrown (e : Error).
Arguments Returned {A} a.
Arguments Thrown {A} e.

(** *** The transport collaborator *)

(** The request bodies [defaultFetcher] is instantiated with. *)
Inductive Payload : Type :=
| OfMultipleDetailMessageSendingRequest (p : MultipleDetailMessageSendingRequest)
| OfCreateGroupRequest (p : CreateGroupRequest.t)
| OfGroupMessageAddRequest (p : GroupMessageAddRequest)
| OfScheduledDateSendingRequest (p : ScheduledDateSendingRequest.t).

(** The response types [defaultFetcher] is instantiated with. *)
Inductive ResponseType : Type :=
| RGroupMessageResponse
| RAddMessageResponse
| RDetailGroupMessageResponse
| RGetKakaoChannelsResponse
| RGetBlacksResponse.

Definition ResponseBody (R : ResponseType) : Type :=
  match R with
  | RGroupMessageResponse => GroupMessageResponse
  | RAddMessageResponse => AddMessageResponse
  | RDetailGroupMessageResponse => DetailGroupMessageResponse
  | RGetKakaoChannelsResponse => GetKakaoChannelsResponse.t KakaoChannelInterface
  | RGetBlacksResponse => GetBlacksResponse
  end.

(** One call [defaultFetcher(authInfo, requestConfig, payload)]. *)
Record Call : Type := mkCall {
  call_authInfo : AuthInfo.t;
  call_requestConfig : RequestConfig.t;
  call_payload : option Payload
}.

(** The remote service behind the transport: given the calls issued so
    far and the present call, it rejects or answers with a body. *)
Definition Transport : Type :=
  forall R : ResponseType, list Call -> Call -> FetchError + ResponseBody R.

Inductive Settled : Type :=
| Fulfilled
| RejectedWith (e : FetchError).

(** The calls issued so far, oldest first, each with how it settled. *)
Definition Log : Type := list (Call * Settled).

(** *** Asynchronous methods

    An [async] body is run against a transport: it takes the log of calls
    and gives its completion with the extended log. Awaiting a rejected
    promise completes the awaiting body with the same error. *)
Definition Async (A : Type) : Type := Transport -> Log -> Completion A * Log.

Definition ret {A : Type} (a : A) : Async A :=
  fun _ log => (Returned a, log).

Definition throw {A : Type} (e : Error) : Async A :=
  fun _ log => (Thrown e, log).

Definition bind {A B : Type} (m : Async A) (k : A -> Async B) : Async B :=
  fun transport log =>
    match m transport log with
    | (Returned a, log') => k a transport log'
    | (Thrown e, log') => (Thrown e, log')
    end.

Definition defaultFetcher (R : ResponseType) (authInfo : AuthInfo.t)
    (requestConfig : RequestConfig.t) (payload : option Payload)
    : Async (ResponseBody R) :=
  fun transport log =>
    let call := mkCall authInfo requestConfig payload in
    match transport R (map fst log) call with
    | inl e => (Thrown (Rejected e), (log ++ [(call, RejectedWith e)])%list)
    | inr body => (Returned body, (log ++ [(call, Fulfilled)])%list)
    end.

(** *** Calls of methods

    What a call does at the call site. A function that is not [async]
    can throw to its caller, synchronously. A method declared [async]
    never does: the call returns a promise, and whatever its body throws,
    before or after it first waits, rejects that promise. *)
Inductive Invocation (A : Type) : Type :=
| ThrowsSynchronously (e : Error)
| ReturnsPromise (promise : Async A).
Arguments ThrowsSynchronously {A} e.
Arguments ReturnsPromise {A} promise.

(** The keyword [async] before a method. *)
Definition async {A : Type} (body : Async A) : Invocation A :=
  ReturnsPromise body.

End Facade.

Arguments Returned {ext A} a.
Arguments Thrown {ext A} e.
Arguments ThrowsSynchronously {ext A} e.
Arguments ReturnsPromise {ext A} promise.

Declare Scope async_scope.
Delimit Scope async_scope with async.
Notation "x <- m ;; k" := (bind m (fun x => k))
  (at level 61, m at next level, right associativity) : async_scope.
Notation "m ;; k" := (bind m (fun _ => k))
  (at level 61, right associativity) : async_scope.

(** ** solapi.ts: [SolapiMessageService] *)

Module SolapiMessageService.
Record t : Type := mk { baseUrl : string; authInfo : AuthInfo.t }.

Definition constructor (apiKey apiSecret : string) : t :=
  mk "https://api.solapi.com" (AuthInfo.mk apiKey apiSecret).
End SolapiMessageService.

Section Service.
Context {ext : External}.
Import SolapiMessageService.
Local Open Scope async_scope.

(** [MessageParameter | Array<MessageParameter>]. *)
Inductive MessageInput : Type :=
| Single (message : MessageParameter)
| Batch (messages : list MessageParameter).

Definition Array_isArray (messages : MessageInput) : bool :=
  match messages with
  | Single _ => false
  | Batch _ => true
  end.

(** [array.push(item)]. *)
Definition push {A : Type} (array : list A) (item : A) : list A :=
  (array ++ [item])%list.

(** [object?.property] for an optional property of an optional object. *)
Definition optional {A B : Type} (object : option A) (property : A -> option B)
    : option B :=
  match object with
  | Some o => property o
  | None => None
  end.

(** The payload [send] collects before it validates: [forEach] with [push]
    over an array, one [push] for a bare message. *)
Definition send_payload (messages : MessageInput) : Completion (list Message) :=
  match messages with
  | Batch values =>
      Returned (fold_left (fun payload value => push payload (newMessage value))
                          values [])
  | Single message =>
      if negb (Array_isArray messages)
      then Returned (push [] (newMessage message))
      else Thrown (BadRequestError "잘못된 값이 입력되었습니다.")
  end.

Definition send (this : t) (messages : MessageInput)
    (requestConfigParameter : option (SendRequestConfig.t Date))
    : Async DetailGroupMessageResponse :=
  match send_payload messages with
  | Thrown e => throw e
  | Returned payload =>
      if (length payload =? 0)%nat
      then throw (BadRequestError
                    "데이터가 반드시 1건 이상 기입되어 있어야 합니다.")
      else
        let parameter :=
          newMultipleDetailMessageSendingRequest payload
            (optional requestConfigParameter SendRequestConfig.allowDuplicates)
            (optional requestConfigParameter SendRequestConfig.appId)
            (optional requestConfigParameter SendRequestConfig.scheduledDate)
            (optional requestConfigParameter SendRequestConfig.showMessageList) in
        let requestConfig :=
          RequestConfig.mk "POST" (baseUrl this ++ "/messages/v4/send-many/detail") in
        res <- defaultFetcher RDetailGroupMessageResponse (authInfo this)
                 requestConfig
                 (Some (OfMultipleDetailMessageSendingRequest parameter)) ;;
        let count := count (groupInfo res) in
        if (0 <? length (failedMessageList res))%nat
           && (total count =? registeredFailed count)%Z
        then throw (MessageNotReceivedError (failedMessageList res))
        else ret res
  end.

Definition createGroup (this : t) (allowDuplicates : option bool)
    (appId : option string) : Async GroupId :=
  let allowDuplicates := allowDuplicates ?? false in
  let sdkVersion := DefaultAgent.sdkVersion defaultAgent in
  let osPlatform := DefaultAgent.osPlatform defaultAgent in
  let requestConfig :=
    RequestConfig.mk "POST" (baseUrl this ++ "/messages/v4/groups") in
  res <- defaultFetcher RGroupMessageResponse (authInfo this) requestConfig
           (Some (OfCreateGroupRequest
                    (CreateGroupRequest.mk sdkVersion osPlatform
                                           allowDuplicates appId))) ;;
  ret (groupId res).

Definition addMessagesToGroup (this : t) (groupId : GroupId)
    (messages : list Message) : Async AddMessageResponse :=
  let requestConfig :=
    RequestConfig.mk "PUT"
      (baseUrl this ++ "/messages/v4/groups/" ++ groupId ++ "/messages") in
  defaultFetcher RAddMessageResponse (authInfo this) requestConfig
    (Some (OfGroupMessageAddRequest (newGroupMessageAddRequest messages))).

Definition reserveGroup (this : t) (groupId : GroupId) (scheduledDate : Date)
    : Async GroupMessageResponse :=
  let requestConfig :=
    RequestConfig.mk "POST"
      (baseUrl this ++ "/messages/v4/groups/" ++ groupId ++ "/schedule") in
  match formatISO scheduledDate with
  | None => throw RangeError
  | Some formattedScheduledDate =>
      defaultFetcher RGroupMessageResponse (authInfo this) requestConfig
        (Some (OfScheduledDateSendingRequest
                 (ScheduledDateSendingRequest.mk formattedScheduledDate)))
  end.

Definition sendOneFuture (this : t) (message : Message)
    (scheduledDate : StringOrDate Date) : Async GroupMessageResponse :=
  groupId <- createGroup this None None ;;
  addMessagesToGroup this groupId [message] ;;
  let scheduledDate := stringDateTransfer scheduledDate in
  reserveGroup this groupId scheduledDate.

Definition sendManyFuture (this : t) (messages : list Message)
    (scheduledDate : StringOrDate Date) (allowDuplicates : option bool)
    (appId : option string) : Async GroupMessageResponse :=
  let allowDuplicates := allowDuplicates ?? false in
  groupId <- createGroup this (Some allowDuplicates) appId ;;
  addMessagesToGroup this groupId messages ;;
  let scheduledDate := stringDateTransfer scheduledDate in
  reserveGroup this groupId scheduledDate.

Definition getKakaoChannels (this : t) (data : option GetKakaoChannelsRequest)
    : Async (GetKakaoChannelsFinalizeResponse.t KakaoChannel) :=
  let payload :=
    match data with
    | Some data => newGetKakaoChannelsFinalizeRequest data
    | None => emptyGetKakaoChannelsFinalizeRequest
    end in
  let parameter :=
    qs_stringify _ payload (StringifyOptions.mk (Some false) None) in
  let endpoint := baseUrl this ++ "/kakao/v2/channels?" ++ parameter in
  let requestConfig := RequestConfig.mk "GET" endpoint in
  response <- defaultFetcher RGetKakaoChannelsResponse (authInfo this)
                requestConfig None ;;
  let channelList :=
    fold_left (fun channelList channel => push channelList (newKakaoChannel channel))
              (GetKakaoChannelsResponse.channelList response) [] in
  ret (GetKakaoChannelsFinalizeResponse.mk
         (GetKakaoChannelsResponse.limit response)
         (GetKakaoChannelsResponse.startKey response)
         (GetKakaoChannelsResponse.nextKey response)
         channelList).

(** The finalized request [getBlacks] serializes. *)
Definition getBlacks_payload (data : option (GetBlacksRequest.t Date))
    : GetBlacksFinalizeRequest.t :=
  match data with
  | Some data => GetBlacksFinalizeRequest.constructor formatWithTransfer data
  | None => GetBlacksFinalizeRequest.mk "DENIAL" None None None None
  end.

Definition getBlacks (this : t) (data : option (GetBlacksRequest.t Date))
    : Async GetBlacksResponse :=
  let payload := getBlacks_payload data in
  let parameter :=
    qs_stringify _ payload (StringifyOptions.mk (Some false) (Some true)) in
  let endpoint := baseUrl this ++ "/iam/v1/black" ++ parameter in
  let requestConfig := RequestConfig.mk "GET" endpoint in
  defaultFetcher RGetBlacksResponse (authInfo this) requestConfig None.

End Service.

(** The methods as a caller calls them: in solapi.ts every method of the
    class is declared [async]. *)
Module AsyncMethod.
Section Methods.
Context {ext : External}.

Definition send (this : SolapiMessageService.t) (messages : MessageInput)
    (requestConfigParameter : option (SendRequestConfig.t Date))
    : Invocation DetailGroupMessageResponse :=
  async (send this messages requestConfigParameter).

End Methods.
End AsyncMethod.

(** ** Vocabulary of the statements *)

Section Vocabulary.
Context {ext : External}.
Import SolapiMessageService.

(** The message parameters an input to [send] holds, in order. *)
Definition messagesOf (messages : MessageInput) : list MessageParameter :=
  match messages with
  | Single message => [message]
  | Batch values => values
  end.

(** The request [send] hands to the transport for a list of message
    parameters. *)
Definition send_call (this : t) (values : list MessageParameter)
    (requestConfigParameter : option (SendRequestConfig.t Date)) : Call :=
  mkCall (authInfo this)
    (RequestConfig.mk "POST" (baseUrl this ++ "/messages/v4/send-many/detail"))
    (Some (OfMultipleDetailMessageSendingRequest
             (newMultipleDetailMessageSendingRequest (map newMessage values)
                (optional requestConfigParameter SendRequestConfig.allowDuplicates)
                (optional requestConfigParameter SendRequestConfig.appId)
                (optional requestConfigParameter SendRequestConfig.scheduledDate)
                (optional requestConfigParameter SendRequestConfig.showMessageList)))).

(** The request [getKakaoChannels] hands to the transport. *)
Definition getKakaoChannels_call (this : t) (data : option GetKakaoChannelsRequest)
    : Call :=
  mkCall (authInfo this)
    (RequestConfig.mk "GET"
       (baseUrl this ++ "/kakao/v2/channels?"
        ++ qs_stringify _
             (match data with
              | Some data => newGetKakaoChannelsFinalizeRequest data
              | None => emptyGetKakaoChannelsFinalizeRequest
              end)
             (StringifyOptions.mk (Some false) None)))
    None.

(** The composite operations: create a group, add messages to it,
    schedule it. *)
Inductive Composite : Type :=
| SendOneFuture (message : Message) (scheduledDate : StringOrDate Date)
| SendManyFuture (messages : list Message) (scheduledDate : StringOrDate Date)
    (allowDuplicates : option bool) (appId : option string).

Definition runComposite (this : t) (operation : Composite)
    : Async GroupMessageResponse :=
  match operation with
  | SendOneFuture message scheduledDate =>
      sendOneFuture this message scheduledDate
  | SendManyFuture messages scheduledDate allowDuplicates appId =>
      sendManyFuture this messages scheduledDate allowDuplicates appId
  end.

End Vocabulary.

(** ** A concrete set of collaborators

    Messages, channels and errors are plain strings, the date helpers are
    the normaliser of [StringDateTransfer], [formatISO] throwing on the
    invalid Date, and the detail response holds
    the fields [send] reads. *)

Module SampleResponse.
Record Count : Type := mkCount { total : number; registeredFailed : number }.
Record GroupInfo : Type := mkGroupInfo { count : Count }.
Record t : Type := mk { groupInfo : GroupInfo; failedMessageList : list string }.
End SampleResponse.

Definition sample : External := {|
  MessageParameter := string;
  Message := string;
  newMessage := fun value => value;
  Date := StringDateTransfer.Date;
  stringDateTransfer := StringDateTransfer.stringDateTransfer;
  formatISO := fun date =>
    match date with
    | StringDateTransfer.Valid _ => Some (StringDateTransfer.formatISO date)
    | StringDateTransfer.InvalidDate => None
    end;
  formatWithTransfer := StringDateTransfer.formatWithTransfer;
  MultipleDetailMessageSendingRequest :=
    list string * option bool * option string
    * option (StringOrDate StringDateTransfer.Date) * option bool;
  newMultipleDetailMessageSendingRequest :=
    fun messages allowDuplicates appId scheduledDate showMessageList =>
      (messages, allowDuplicates, appId, scheduledDate, showMessageList);
  GroupMessageAddRequest := list string;
  newGroupMessageAddRequest := fun messages => messages;
  defaultAgent := DefaultAgent.mk "nodejs/5.0.0" "linux";
  GroupMessageResponse := string;
  groupId := fun res => res;
  AddMessageResponse := unit;
  FailedMessage := string;
  Count := SampleResponse.Count;
  total := SampleResponse.total;
  registeredFailed := SampleResponse.registeredFailed;
  GroupInfo := SampleResponse.GroupInfo;
  count := SampleResponse.count;
  DetailGroupMessageResponse := SampleResponse.t;
  groupInfo := SampleResponse.groupInfo;
  failedMessageList := SampleResponse.failedMessageList;
  GetBlacksResponse := unit;
  KakaoChannelInterface := string;
  KakaoChannel := string;
  newKakaoChannel := fun channel => channel;
  GetKakaoChannelsRequest := unit;
  GetKakaoChannelsFinalizeRequest := unit;
  emptyGetKakaoChannelsFinalizeRequest := tt;
  newGetKakaoChannelsFinalizeRequest := fun data => data;
  qs_stringify := fun _ _ _ => "";
  FetchError := string
|}.

(** A transport that answers every call; a detail request gets [res]. *)
Definition answering (res : SampleResponse.t) : @Transport sample :=
  fun R _ _ =>
    match R return string + @ResponseBody sample R with
    | RGroupMessageResponse => inr "G4V20240101000000"
    | RAddMessageResponse => inr tt
    | RDetailGroupMessageResponse => inr res
    | RGetKakaoChannelsResponse =>
        inr (GetKakaoChannelsResponse.mk 20%Z "" None [])
    | RGetBlacksResponse => inr tt
    end.

(** A transport that rejects the call number [n] (from 0) with [e] and
    answers the others as [answering res] does. *)
Definition rejectingAt (n : nat) (e : string) (res : SampleResponse.t)
    : @Transport sample :=
  fun R history call =>
    if (length history =? n)%nat then inl e else answering res R history call.

Definition service : SolapiMessageService.t :=
  SolapiMessageService.constructor "NCSAYU7YDBXYORXC" "secret".

(** The log before any call. *)
Definition noCalls : @Log sample := [].

(** Every message of the batch failed, yet the response lists none. *)
Definition allFailedUnlisted : SampleResponse.t :=
  SampleResponse.mk (SampleResponse.mkGroupInfo (SampleResponse.mkCount 1%Z 1%Z)) [].

Definition allFailedListed : SampleResponse.t :=
  SampleResponse.mk (SampleResponse.mkGroupInfo (SampleResponse.mkCount 1%Z 1%Z))
    ["01000000000"].

Definition scenarioRequest : GetBlacksRequest.t StringDateTransfer.Date :=
  GetBlacksRequest.mk None None None
    (Some (OfString "2024-01-01T00:00:00+09:00")) None.

(** The first two requests of a scheduled send of ["hi"] through
    [service]. *)
Definition createCall : @Call sample :=
  mkCall (SolapiMessageService.authInfo service)
    (RequestConfig.mk "POST" "https://api.solapi.com/messages/v4/groups")
    (Some (OfCreateGroupRequest
             (CreateGroupRequest.mk "nodejs/5.0.0" "linux" false None))).

Definition addCall : @Call sample :=
  mkCall (SolapiMessageService.authInfo service)
    (RequestConfig.mk "PUT"
       "https://api.solapi.com/messages/v4/groups/G4V20240101000000/messages")
    (Some (OfGroupMessageAddRequest (ext:=sample) ["hi"])).

Definition futureHi : @Composite sample :=
  SendOneFuture (ext:=sample) "hi" (OfString "2024-01-01T00:00:00+09:00").

(** A raw blacklist request whose [startDate] is a Date, and the
    normaliser of [StringDateTransfer] on run-time values. *)
Definition rawWithDate : @RequestObject.t StringDateTransfer.Date :=
  [("senderNumber", VString "029302266");
   ("startDate",
    VDate (StringDateTransfer.stringDateTransfer
             (OfString "2024-01-01T00:00:00+09:00")));
   ("endDate", VString "2024-01-31T23:59:59+09:00")].

Definition formatValue (value : Value StringDateTransfer.Date) : string :=
  match value with
  | VString s => StringDateTransfer.formatWithTransfer (OfString s)
  | VDate d => StringDateTransfer.formatWithTransfer (OfDate d)
  | _ => "Invalid Date"
  end.

(** A family without a discriminant, as the specification describes the
    group queries. *)
Definition groupsFamily : @RequestObject.Family StringDateTransfer.Date :=
  RequestObject.mkFamily [] ["startKey"; "limit"] "dateCreated".

(** [send] validates that its input holds at least one message. *)
Definition nonEmpty {ext : External} (messages : MessageInput) : bool :=
  negb (length (messagesOf messages) =? 0)%nat.

(** ** solapi.ts: the operations on one group, addressed by its id *)

Section GroupOperations.
Context {ext : External}.
Import SolapiMessageService.

Definition sendGroup (this : t) (groupId : GroupId) : Async GroupMessageResponse :=
  let requestConfig :=
    RequestConfig.mk "POST"
      (baseUrl this ++ "/messages/v4/groups/" ++ groupId ++ "/send") in
  defaultFetcher RGroupMessageResponse (authInfo this) requestConfig None.

Definition getGroup (this : t) (groupId : GroupId) : Async GroupMessageResponse :=
  let requestConfig :=
    RequestConfig.mk "GET" (baseUrl this ++ "/messages/v4/groups/" ++ groupId) in
  defaultFetcher RGroupMessageResponse (authInfo this) requestConfig None.

Definition removeReservationToGroup (this : t) (groupId : GroupId)
    : Async GroupMessageResponse :=
  let requestConfig :=
    RequestConfig.mk "DELETE"
      (baseUrl this ++ "/messages/v4/groups/" ++ groupId ++ "/schedule") in
  defaultFetcher RGroupMessageResponse (authInfo this) requestConfig None.

Definition removeGroup (this : t) (groupId : GroupId) : Async GroupMessageResponse :=
  let requestConfig :=
    RequestConfig.mk "DELETE" (baseUrl this ++ "/messages/v4/groups/" ++ groupId) in
  defaultFetcher RGroupMessageResponse (authInfo this) requestConfig None.

End GroupOperations.

(** ** Vocabulary of the statements about requests *)

Section Requests.
Context {ext : External}.
Import SolapiMessageService.

(** The request of [createGroup]. *)
Definition createGroup_call (this : t) (allowDuplicates : bool)
    (appId : option string) : Call :=
  mkCall (authInfo this)
    (RequestConfig.mk "POST" (baseUrl this ++ "/messages/v4/groups"))
    (Some (OfCreateGroupRequest
             (CreateGroupRequest.mk (DefaultAgent.sdkVersion defaultAgent)
                (DefaultAgent.osPlatform defaultAgent) allowDuplicates appId))).

(** The request of [addMessagesToGroup]. *)
Definition addMessagesToGroup_call (this : t) (groupId : GroupId)
    (messages : list Message) : Call :=
  mkCall (authInfo this)
    (RequestConfig.mk "PUT"
       (baseUrl this ++ "/messages/v4/groups/" ++ groupId ++ "/messages"))
    (Some (OfGroupMessageAddRequest (newGroupMessageAddRequest messages))).

(** The request of [reserveGroup], for the formatted date. *)
Definition reserveGroup_call (this : t) (groupId : GroupId)
    (formattedScheduledDate : string) : Call :=
  mkCall (authInfo this)
    (RequestConfig.mk "POST"
       (baseUrl this ++ "/messages/v4/groups/" ++ groupId ++ "/schedule"))
    (Some (OfScheduledDateSendingRequest
             (ScheduledDateSendingRequest.mk formattedScheduledDate))).

(** The arguments of a composite operation. *)
Definition composite_messages (operation : Composite) : list Message :=
  match operation with
  | SendOneFuture message _ => [message]
  | SendManyFuture messages _ _ _ => messages
  end.

Definition composite_scheduledDate (operation : Composite) : StringOrDate Date :=
  match operation with
  | SendOneFuture _ scheduledDate => scheduledDate
  | SendManyFuture _ scheduledDate _ _ => scheduledDate
  end.

Definition composite_allowDuplicates (operation : Composite) : bool :=
  match operation with
  | SendOneFuture _ _ => false
  | SendManyFuture _ _ allowDuplicates _ => allowDuplicates ?? false
  end.

Definition composite_appId (operation : Composite) : option string :=
  match operation with
  | SendOneFuture _ _ => None
  | SendManyFuture _ _ _ appId => appId
  end.

(** The methods of the facade embedded here, with their arguments. *)
Inductive Operation : Type :=
| Send (messages : MessageInput)
    (requestConfigParameter : option (SendRequestConfig.t Date))
| CreateGroup (allowDuplicates : option bool) (appId : option string)
| AddMessagesToGroup (groupId : GroupId) (messages : list Message)
| ReserveGroup (groupId : GroupId) (scheduledDate : Date)
| Future (operation : Composite)
| SendGroup (groupId : GroupId)
| GetGroup (groupId : GroupId)
| RemoveReservationToGroup (groupId : GroupId)
| RemoveGroup (groupId : GroupId)
| GetKakaoChannels (data : option GetKakaoChannelsRequest)
| GetBlacks (data : option (GetBlacksRequest.t Date)).

(** The log after an operation has run. *)
Definition logAfter (this : t) (operation : Operation) (transport : Transport)
    (log : Log) : Log :=
  match operation with
  | Send messages requestConfigParameter =>
      snd (send this messages requestConfigParameter transport log)
  | CreateGroup allowDuplicates appId =>
      snd (createGroup this allowDuplicates appId transport log)
  | AddMessagesToGroup groupId messages =>
      snd (addMessagesToGroup this groupId messages transport log)
  | ReserveGroup groupId scheduledDate =>
      snd (reserveGroup this groupId scheduledDate transport log)
  | Future operation => snd (runComposite this operation transport log)
  | SendGroup groupId => snd (sendGroup this groupId transport log)
  | GetGroup groupId => snd (getGroup this groupId transport log)
  | RemoveReservationToGroup groupId =>
      snd (removeReservationToGroup this groupId transport log)
  | RemoveGroup groupId => snd (removeGroup this groupId transport log)
  | GetKakaoChannels data => snd (getKakaoChannels this data transport log)
  | GetBlacks data => snd (getBlacks this data transport log)
  end.


(** How the requests an operation adds to the log settled. *)
Definition settlementsOf (this : t) (operation : Operation)
    (transport : Transport) (log : Log) : list Settled :=
  map snd (skipn (length log) (logAfter this operation transport log)).




(** How many requests an operation can issue at most. *)
Definition maxCalls (operation : Operation) : nat :=
  match operation with
  | Future _ => 3
  | _ => 1
  end.

(** A request of this service: it carries the service's credentials, its
    URL lies under the service's base URL, its method is one of the four
    the facade uses, and a GET or DELETE has no body. *)
Definition ofService (this : t) (call : Call) : Prop :=
  call_authInfo call = authInfo this
  /\ String.prefix (baseUrl this) (RequestConfig.url (call_requestConfig call))
     = true
  /\ In (RequestConfig.method (call_requestConfig call))
        ["GET"; "POST"; "PUT"; "DELETE"]
  /\ (RequestConfig.method (call_requestConfig call) = "GET"
      \/ RequestConfig.method (call_requestConfig call) = "DELETE" ->
      call_payload call = None).

End Requests.

(** Of two messages one failed: the counts differ. *)
Definition partlyFailed : SampleResponse.t :=
  SampleResponse.mk (SampleResponse.mkGroupInfo (SampleResponse.mkCount 2%Z 1%Z))
    ["01000000000"].

(** The third request of a scheduled send of ["hi"] through [service]. *)
Definition scheduleCall : @Call sample :=
  mkCall (SolapiMessageService.authInfo service)
    (RequestConfig.mk "POST"
       "https://api.solapi.com/messages/v4/groups/G4V20240101000000/schedule")
    (Some (OfScheduledDateSendingRequest (ext:=sample)
             (ScheduledDateSendingRequest.mk "2024-01-01T00:00:00+09:00"))).

(** * Properties *)

(** ** The blacklist request finalizer *)

Section GetBlacksFinalizeRequestFacts.
Context {Date : Type}.
Variable formatWithTransfer : StringOrDate Date -> string.
Import GetBlacksFinalizeRequest.

Lemma constructor_copies (parameter : GetBlacksRequest.t Date) :
  type (constructor formatWithTransfer parameter) = "DENIAL"
  /\ senderNumber (constructor formatWithTransfer parameter)
     = GetBlacksRequest.senderNumber parameter
  /\ startKey (constructor formatWithTransfer parameter)
     = GetBlacksRequest.startKey parameter
  /\ limit (constructor formatWithTransfer parameter)
     = GetBlacksRequest.limit parameter.
Proof.
  unfold constructor.
  destruct (GetBlacksRequest.startDate parameter),
           (GetBlacksRequest.endDate parameter); cbn; auto.
Qed.

Lemma constructor_dateCreated (parameter : GetBlacksRequest.t Date) :
  dateCreated (constructor formatWithTransfer parameter)
  = match GetBlacksRequest.startDate parameter,
          GetBlacksRequest.endDate parameter with
    | Some startDate, Some endDate =>
        Some (DatePayloadType.mk (Some (formatWithTransfer startDate))
                                 (Some (formatWithTransfer endDate)))
    | Some startDate, None =>
        Some (DatePayloadType.mk (Some (formatWithTransfer startDate)) None)
    | None, Some endDate =>
        Some (DatePayloadType.mk None (Some (formatWithTransfer endDate)))
    | None, None => None
    end.
Proof.
  unfold constructor.
  case_eq (GetBlacksRequest.startDate parameter);
    case_eq (GetBlacksRequest.endDate parameter); intros; reflexivity.
Qed.

Lemma constructor_hasKey (parameter : GetBlacksRequest.t Date) (key : string) :
  match dateCreated (constructor formatWithTransfer parameter) with
  | Some range => DatePayloadType.hasKey key range
  | None => false
  end
  = (String.eqb key "gte" && defined (GetBlacksRequest.startDate parameter))
    || (String.eqb key "lte" && defined (GetBlacksRequest.endDate parameter)).
Proof.
  rewrite constructor_dateCreated. unfold DatePayloadType.hasKey.
  destruct (String.eqb key "gte") eqn:G.
  - apply String.eqb_eq in G; subst key.
    destruct (GetBlacksRequest.startDate parameter),
             (GetBlacksRequest.endDate parameter); reflexivity.
  - destruct (String.eqb key "lte") eqn:L;
      destruct (GetBlacksRequest.startDate parameter),
               (GetBlacksRequest.endDate parameter); reflexivity.
Qed.

(** C3. The range object of a finalized blacklist request: with both
    [startDate] and [endDate] it holds [gte] and [lte]; with only
    [startDate] it holds [gte] alone, with only [endDate] it holds [lte]
    alone (each the normalised date); with neither, no [dateCreated] is
    produced. In terms of keys: [dateCreated] has the key [gte] exactly
    when [startDate] is given, the key [lte] exactly when [endDate] is
    given, and no other key. *)
Theorem dateCreated_range_keys (parameter : GetBlacksRequest.t Date) :
  dateCreated (constructor formatWithTransfer parameter)
  = match GetBlacksRequest.startDate parameter,
          GetBlacksRequest.endDate parameter with
    | Some startDate, Some endDate =>
        Some (DatePayloadType.mk (Some (formatWithTransfer startDate))
                                 (Some (formatWithTransfer endDate)))
    | Some startDate, None =>
        Some (DatePayloadType.mk (Some (formatWithTransfer startDate)) None)
    | None, Some endDate =>
        Some (DatePayloadType.mk None (Some (formatWithTransfer endDate)))
    | None, None => None
    end
  /\ forall key : string,
       match dateCreated (constructor formatWithTransfer parameter) with
       | Some range => DatePayloadType.hasKey key range
       | None => false
       end
       = (String.eqb key "gte" && defined (GetBlacksRequest.startDate parameter))
         || (String.eqb key "lte" && defined (GetBlacksRequest.endDate parameter)).
Proof.
  split.
  - apply constructor_dateCreated.
  - intros key. apply constructor_hasKey.
Qed.

End GetBlacksFinalizeRequestFacts.

(** The raw request does hold [Date] values when the caller gives them. *)
Example raw_request_holds_Date :
  containsDate
    (GetBlacksRequest.toValue
       (GetBlacksRequest.mk None None None
          (Some (OfDate StringDateTransfer.InvalidDate)) None))
  = true.
Proof. reflexivity. Qed.

Section RequestObjectFacts.
Context {Date : Type}.
Import RequestObject.

Lemma containsDate_cons (key : string) (value : Value Date) (rest : @t Date) :
  containsDate (VObject ((key, value) :: rest))
  = containsDate value || containsDate (VObject rest).
Proof. reflexivity. Qed.

Lemma containsDate_app (first second : @t Date) :
  containsDate (VObject (first ++ second)%list)
  = containsDate (VObject first) || containsDate (VObject second).
Proof.
  induction first as [|[key value] first IH]; [reflexivity|].
  cbn [app]. rewrite !containsDate_cons, IH. now rewrite orb_assoc.
Qed.

Lemma get_noDate (key : string) (object : @t Date) (value : Value Date) :
  containsDate (VObject object) = false ->
  get key object = Some value ->
  containsDate value = false.
Proof.
  induction object as [|[k v] object IH]; cbn [get]; [discriminate|].
  rewrite containsDate_cons. intros Hobject Hget.
  apply orb_false_iff in Hobject as [Hv Hrest].
  destruct (String.eqb k key).
  - injection Hget as <-. exact Hv.
  - exact (IH Hrest Hget).
Qed.

Lemma replace_noDate (key : string) (value : Value Date) (object : @t Date) :
  containsDate value = false ->
  containsDate (VObject object) = false ->
  containsDate (VObject (replace key value object)) = false.
Proof.
  intros Hvalue.
  induction object as [|[k v] object IH]; cbn [replace]; [trivial|].
  rewrite containsDate_cons. intros Hobject.
  apply orb_false_iff in Hobject as [Hv Hrest].
  destruct (String.eqb k key); rewrite containsDate_cons.
  - now rewrite Hvalue, Hrest.
  - now rewrite Hv, (IH Hrest).
Qed.

Lemma delete_noDate (key : string) (object : @t Date) :
  containsDate (VObject object) = false ->
  containsDate (VObject (delete key object)) = false.
Proof.
  induction object as [|[k v] object IH]; cbn [delete]; [trivial|].
  rewrite containsDate_cons. intros Hobject.
  apply orb_false_iff in Hobject as [Hv Hrest].
  destruct (String.eqb k key); [exact (IH Hrest)|].
  rewrite containsDate_cons. now rewrite Hv, (IH Hrest).
Qed.

Lemma set_noDate (key : string) (value : option (Value Date)) (object : @t Date) :
  (forall v, value = Some v -> containsDate v = false) ->
  containsDate (VObject object) = false ->
  containsDate (VObject (set key value object)) = false.
Proof.
  intros Hvalue Hobject. unfold set. destruct value as [v|].
  - destruct (defined (get key object)).
    + apply replace_noDate; auto.
    + rewrite containsDate_app, Hobject, containsDate_cons, (Hvalue v eq_refl).
      reflexivity.
  - now apply delete_noDate.
Qed.

Lemma Object_assign_noDate (target : Value Date) (source : @t Date) :
  containsDate target = false ->
  containsDate (VObject source) = false ->
  containsDate (Object_assign target source) = false.
Proof.
  destruct target as [s|n|d|fields]; cbn [Object_assign]; trivial.
  revert fields.
  induction source as [|[key value] source IH]; intros fields Hfields Hsource;
    cbn [fold_left]; [exact Hfields|].
  rewrite containsDate_cons in Hsource.
  apply orb_false_iff in Hsource as [Hvalue Hrest].
  apply IH; [|exact Hrest].
  apply set_noDate; [|exact Hfields].
  cbn [fst snd]. intros v Hv. now injection Hv as <-.
Qed.

(** Setting one key of the range object to a string keeps an object free
    of Dates so. *)
Lemma range_noDate (rangeKey key text : string) (this : @t Date) :
  containsDate (VObject this) = false ->
  containsDate
    (VObject
       (set rangeKey
          (Some (Object_assign (get rangeKey this ?? VObject [])
                   [(key, VString text)]))
          this))
  = false.
Proof.
  intros Hthis. apply set_noDate; [|exact Hthis].
  intros v Hv. injection Hv as <-.
  apply Object_assign_noDate; [|reflexivity].
  destruct (get rangeKey this) as [inner|] eqn:Hget; cbn [nullish].
  - exact (get_noDate _ _ _ Hthis Hget).
  - reflexivity.
Qed.

Lemma carried_noDate (keys : list string) (raw : @t Date) :
  holdNoDate keys raw = true ->
  forall this : @t Date,
    containsDate (VObject this) = false ->
    containsDate
      (VObject (fold_left (fun this key => set key (get key raw) this) keys this))
    = false.
Proof.
  induction keys as [|key keys IH]; cbn [fold_left holdNoDate forallb];
    intros Hraw this Hthis; [exact Hthis|].
  apply andb_true_iff in Hraw as [Hkey Hkeys].
  apply (IH Hkeys). apply set_noDate; [|exact Hthis].
  intros v Hv. rewrite Hv in Hkey. now apply negb_true_iff in Hkey.
Qed.

Lemma finalize_noDate (formatWithTransfer : Value Date -> string)
    (family : @Family Date) (raw : @t Date) :
  containsDate (VObject (defaults family)) = false ->
  holdNoDate (carried family) raw = true ->
  containsDate (VObject (finalize formatWithTransfer family raw)) = false.
Proof.
  intros Hdefaults Hraw. unfold finalize.
  pose proof (carried_noDate _ _ Hraw _ Hdefaults) as Hthis.
  destruct (get "startDate" raw) as [startDate|];
    destruct (get "endDate" raw) as [endDate|];
    repeat apply range_noDate; exact Hthis.
Qed.

(** The constructor of the source is the finalizer of the specification
    at the blacklist family. *)
Lemma newGetBlacksFinalizeRequest_finalize
    (formatWithTransfer : Value Date -> string) (parameter : @t Date) :
  newGetBlacksFinalizeRequest formatWithTransfer parameter
  = finalize formatWithTransfer blacklist parameter.
Proof. reflexivity. Qed.

(** On a request of the declared type the constructor on run-time objects
    builds the object of the typed constructor. *)
Lemma newGetBlacksFinalizeRequest_typed
    (formatWithTransfer : Value Date -> string)
    (format : StringOrDate Date -> string)
    (parameter : GetBlacksRequest.t Date) :
  (forall date, formatWithTransfer (GetBlacksRequest.dateValue date)
                = format date) ->
  newGetBlacksFinalizeRequest formatWithTransfer
    (fieldsOf (GetBlacksRequest.toValue parameter))
  = fieldsOf (GetBlacksFinalizeRequest.toValue
                (GetBlacksFinalizeRequest.constructor format parameter)).
Proof.
  intros Hformat.
  destruct parameter as [[sender|] [start|] [limit|] [startDate|] [endDate|]];
    cbn; rewrite ?Hformat; reflexivity.
Qed.

Lemma newGetBlacksFinalizeRequest_range
    (formatWithTransfer : Value Date -> string) (parameter : @t Date) :
  getPath ["dateCreated"; "gte"]
    (VObject (newGetBlacksFinalizeRequest formatWithTransfer parameter))
  = option_map (fun date => VString (formatWithTransfer date))
               (get "startDate" parameter)
  /\ getPath ["dateCreated"; "lte"]
       (VObject (newGetBlacksFinalizeRequest formatWithTransfer parameter))
     = option_map (fun date => VString (formatWithTransfer date))
                  (get "endDate" parameter).
Proof.
  unfold newGetBlacksFinalizeRequest.
  destruct (get "senderNumber" parameter), (get "startKey" parameter),
    (get "limit" parameter), (get "startDate" parameter),
    (get "endDate" parameter); split; reflexivity.
Qed.

End RequestObjectFacts.

(** C7. A finalized request holds no raw [Date] in any field. For the
    constructor of [GetBlacksFinalizeRequest], on a raw request object
    whose [senderNumber], [startKey] and [limit] hold no Date, as their
    declared types say, and whose [startDate] and [endDate] may be Dates:
    the object built holds no Date, and its [dateCreated.gte] and
    [dateCreated.lte] are the strings the normaliser gives for [startDate]
    and [endDate]. For the finalizer of every other family, as the
    specification gives it, on a raw request whose carried fields hold no
    Date: the finalized request holds no Date. *)
Theorem finalized_request_holds_no_Date :
  forall (Date : Type) (formatWithTransfer : Value Date -> string)
         (parameter : @RequestObject.t Date)
         (family : @RequestObject.Family Date) (raw : @RequestObject.t Date),
    RequestObject.holdNoDate ["senderNumber"; "startKey"; "limit"] parameter
    = true ->
    containsDate (VObject (RequestObject.defaults family)) = false ->
    RequestObject.holdNoDate (RequestObject.carried family) raw = true ->
    (containsDate
       (VObject
          (RequestObject.newGetBlacksFinalizeRequest formatWithTransfer
             parameter))
     = false
     /\ RequestObject.getPath ["dateCreated"; "gte"]
          (VObject
             (RequestObject.newGetBlacksFinalizeRequest formatWithTransfer
                parameter))
        = option_map (fun date => VString (formatWithTransfer date))
                     (RequestObject.get "startDate" parameter)
     /\ RequestObject.getPath ["dateCreated"; "lte"]
          (VObject
             (RequestObject.newGetBlacksFinalizeRequest formatWithTransfer
                parameter))
        = option_map (fun date => VString (formatWithTransfer date))
                     (RequestObject.get "endDate" parameter))
    /\ containsDate
         (VObject (RequestObject.finalize formatWithTransfer family raw))
       = false.
Proof.
  intros Date formatWithTransfer parameter family raw
         Hparameter Hdefaults Hraw.
  split; [split|].
  - rewrite newGetBlacksFinalizeRequest_finalize.
    apply finalize_noDate; [reflexivity|exact Hparameter].
  - apply newGetBlacksFinalizeRequest_range.
  - now apply finalize_noDate.
Qed.

Example rawWithDate_holds_Date :
  containsDate (VObject rawWithDate) = true.
Proof. reflexivity. Qed.

Lemma finalized_request_holds_no_Date_witness :
  RequestObject.holdNoDate ["senderNumber"; "startKey"; "limit"] rawWithDate
  = true
  /\ containsDate (VObject (RequestObject.defaults groupsFamily)) = false
  /\ RequestObject.holdNoDate (RequestObject.carried groupsFamily) rawWithDate
     = true
  /\ ((containsDate
         (VObject
            (RequestObject.newGetBlacksFinalizeRequest formatValue rawWithDate))
       = false
       /\ RequestObject.getPath ["dateCreated"; "gte"]
            (VObject
               (RequestObject.newGetBlacksFinalizeRequest formatValue
                  rawWithDate))
          = option_map (fun date => VString (formatValue date))
                       (RequestObject.get "startDate" rawWithDate)
       /\ RequestObject.getPath ["dateCreated"; "lte"]
            (VObject
               (RequestObject.newGetBlacksFinalizeRequest formatValue
                  rawWithDate))
          = option_map (fun date => VString (formatValue date))
                       (RequestObject.get "endDate" rawWithDate))
      /\ containsDate
           (VObject (RequestObject.finalize formatValue groupsFamily rawWithDate))
         = false).
Proof.
  split; [reflexivity|]. split; [reflexivity|]. split; [reflexivity|].
  apply (finalized_request_holds_no_Date StringDateTransfer.Date formatValue
           rawWithDate groupsFamily rawWithDate); reflexivity.
Defined.

(** C4. The scenario of the specification: finalizing
    [{startDate: "2024-01-01T00:00:00+09:00"}] gives exactly
    [{type: "DENIAL", dateCreated: {gte: "2024-01-01T00:00:00+09:00"}}],
    with no [lte] key; [getBlacks] serializes this request, and with no
    data it serializes [{type: "DENIAL"}]. *)
Theorem blacklist_scenario :
  GetBlacksFinalizeRequest.constructor StringDateTransfer.formatWithTransfer
    scenarioRequest
  = GetBlacksFinalizeRequest.mk "DENIAL" None None None
      (Some (DatePayloadType.mk (Some "2024-01-01T00:00:00+09:00") None))
  /\ GetBlacksFinalizeRequest.toValue (Date:=StringDateTransfer.Date)
       (GetBlacksFinalizeRequest.constructor
          StringDateTransfer.formatWithTransfer scenarioRequest)
     = VObject [("type", VString "DENIAL");
                ("dateCreated",
                 VObject [("gte", VString "2024-01-01T00:00:00+09:00")])]
  /\ getBlacks_payload (ext:=sample) (Some scenarioRequest)
     = GetBlacksFinalizeRequest.mk "DENIAL" None None None
         (Some (DatePayloadType.mk (Some "2024-01-01T00:00:00+09:00") None))
  /\ getBlacks_payload (ext:=sample) None
     = GetBlacksFinalizeRequest.mk "DENIAL" None None None None.
Proof.
  repeat split; reflexivity.
Qed.

(** ** The service facade *)

Section ServiceFacts.
Context {ext : External}.
Import SolapiMessageService.

Lemma fold_left_push {A B : Type} (f : A -> B) (items : list A) :
  forall collected : list B,
    fold_left (fun array item => push array (f item)) items collected
    = (collected ++ map f items)%list.
Proof.
  induction items as [|item items IH]; intros collected; cbn.
  - now rewrite app_nil_r.
  - rewrite IH. unfold push. now rewrite <- app_assoc.
Qed.

Lemma send_payload_map (messages : MessageInput) :
  send_payload messages = Returned (map newMessage (messagesOf messages)).
Proof.
  destruct messages as [message|values]; cbn.
  - reflexivity.
  - now rewrite fold_left_push.
Qed.

Lemma nonEmpty_cons (messages : MessageInput) :
  nonEmpty messages = true ->
  exists value values, messagesOf messages = value :: values.
Proof.
  unfold nonEmpty. destruct (messagesOf messages) as [|value values].
  - discriminate.
  - eauto.
Qed.

(** What [send] does with a well-formed input: one request, then the
    policy on the response. *)
Lemma send_run (this : t) (messages : MessageInput)
    (requestConfigParameter : option (SendRequestConfig.t Date))
    (transport : Transport) (log : Log) :
  nonEmpty messages = true ->
  send this messages requestConfigParameter transport log
  = let call := send_call this (messagesOf messages) requestConfigParameter in
    match transport RDetailGroupMessageResponse (map fst log) call with
    | inl e => (Thrown (Rejected e), (log ++ [(call, RejectedWith e)])%list)
    | inr res =>
        (if (0 <? length (failedMessageList res))%nat
            && (total (count (groupInfo res))
                =? registeredFailed (count (groupInfo res)))%Z
         then Thrown (MessageNotReceivedError (failedMessageList res))
         else Returned res,
         (log ++ [(call, Fulfilled)])%list)
    end.
Proof.
  intros H. destruct (nonEmpty_cons _ H) as (value & values & E).
  unfold send, send_call. rewrite send_payload_map, E. cbn.
  unfold bind, defaultFetcher.
  match goal with
  | |- context [transport ?R ?h ?c] => destruct (transport R h c) as [e|res]
  end.
  - reflexivity.
  - match goal with
    | |- context [andb ?a ?b] => destruct (andb a b)
    end; reflexivity.
Qed.

(** The five ways a composite operation can go: the transport rejects the
    first or the second request; the date cannot be formatted once both
    are answered; the transport rejects the third request; or it answers
    all three. *)
Lemma runComposite_cases (this : t) (operation : Composite)
    (transport : Transport) (log : Log) :
  exists create : Call,
    (exists e,
        runComposite this operation transport log
        = (Thrown (Rejected e), (log ++ [(create, RejectedWith e)])%list))
    \/ (exists add e,
          runComposite this operation transport log
          = (Thrown (Rejected e),
             (log ++ [(create, Fulfilled); (add, RejectedWith e)])%list))
    \/ (exists add,
          runComposite this operation transport log
          = (Thrown RangeError,
             (log ++ [(create, Fulfilled); (add, Fulfilled)])%list))
    \/ (exists add schedule e,
          runComposite this operation transport log
          = (Thrown (Rejected e),
             (log ++ [(create, Fulfilled); (add, Fulfilled);
                      (schedule, RejectedWith e)])%list))
    \/ (exists add schedule res,
          runComposite this operation transport log
          = (Returned res,
             (log ++ [(create, Fulfilled); (add, Fulfilled);
                      (schedule, Fulfilled)])%list)).
Proof.
  destruct operation as [message scheduledDate
                        |messages scheduledDate allowDuplicates appId];
    cbn [runComposite];
    unfold sendOneFuture, sendManyFuture, createGroup, addMessagesToGroup,
      reserveGroup, bind, defaultFetcher, ret, throw;
    eexists;
    (match goal with
     | |- context [transport RGroupMessageResponse (map fst log) ?c] =>
         destruct (transport RGroupMessageResponse (map fst log) c) as [e|created]
     end;
     [left; eexists; reflexivity|]);
    (match goal with
     | |- context [transport RAddMessageResponse ?h ?c] =>
         destruct (transport RAddMessageResponse h c) as [e|added]
     end;
     [right; left; do 2 eexists; rewrite <- app_assoc; reflexivity|]);
    (destruct (formatISO (stringDateTransfer scheduledDate))
       as [formattedScheduledDate|];
     [|right; right; left; eexists; rewrite <- app_assoc; reflexivity]);
    (match goal with
     | |- context [transport RGroupMessageResponse ((map fst ((?l ++ ?a) ++ ?b))%list) ?c] =>
         destruct (transport RGroupMessageResponse (map fst ((l ++ a) ++ b)%list) c)
           as [e|scheduled]
     end;
     right; right; right; [left|right]; do 3 eexists;
     rewrite <- !app_assoc; reflexivity).
Qed.

End ServiceFacts.

(** The body of [send] on the empty array: it fails validation whatever
    the transport is, with the log of transport calls as it was. *)
Lemma send_empty_array_body :
  forall (ext : External) (this : SolapiMessageService.t)
         (requestConfigParameter : option (SendRequestConfig.t Date))
         (transport : Transport) (log : Log),
    send this (Batch []) requestConfigParameter transport log
    = (Thrown (BadRequestError
                 "데이터가 반드시 1건 이상 기입되어 있어야 합니다."),
       log).
Proof.
  intros. reflexivity.
Qed.

(** C2, as the code has it. A call of [send] with an empty array does not
    throw to its caller: [send] is declared [async], so the call returns a
    promise. That promise is rejected with a [BadRequestError] whatever
    the transport is, and the log of transport calls is as it was: the
    rejection is decided before any request is issued. *)
Theorem send_empty_array_rejects_before_any_call :
  forall (ext : External) (this : SolapiMessageService.t)
         (requestConfigParameter : option (SendRequestConfig.t Date)),
    (forall e : Error,
        AsyncMethod.send this (Batch []) requestConfigParameter
        <> ThrowsSynchronously e)
    /\ exists promise : Async DetailGroupMessageResponse,
         AsyncMethod.send this (Batch []) requestConfigParameter
         = ReturnsPromise promise
         /\ forall (transport : Transport) (log : Log),
              promise transport log
              = (Thrown (BadRequestError
                           "데이터가 반드시 1건 이상 기입되어 있어야 합니다."),
                 log).
Proof.
  intros ext this cfg. split.
  - intros e. unfold AsyncMethod.send, async. discriminate.
  - exists (send this (Batch []) cfg). split; [reflexivity|].
    intros transport log. apply send_empty_array_body.
Qed.

(** C2 as stated fails: the call of [send] on the empty array throws no
    [BadRequestError] synchronously; what the caller gets is a promise. *)
Lemma send_empty_array_does_not_throw_synchronously :
  ~ (exists message : string,
        AsyncMethod.send (ext:=sample) service (Batch (ext:=sample) []) None
        = ThrowsSynchronously (BadRequestError (ext:=sample) message))
  /\ AsyncMethod.send (ext:=sample) service (Batch (ext:=sample) []) None
     = ReturnsPromise (send (ext:=sample) service (Batch (ext:=sample) []) None).
Proof.
  split; [|reflexivity].
  intros [message H]. unfold AsyncMethod.send, async in H. discriminate H.
Qed.

Section LogFacts.
Context {ext : External}.

(** In a log whose entries before the last are all fulfilled, a rejected
    entry can only be the last one. *)
Lemma rejected_entry_is_last (calls earlier later : Log) (call : Call)
    (e : FetchError) :
  Forall (fun entry => snd entry = Fulfilled) (removelast calls) ->
  calls = (earlier ++ (call, RejectedWith e) :: later)%list ->
  later = [].
Proof.
  intros Hall ->. destruct later as [|next later]; [reflexivity|].
  exfalso.
  rewrite removelast_app in Hall by discriminate.
  apply Forall_app in Hall as [_ Hall].
  cbn in Hall. inversion Hall as [|entry rest Hentry _]; subst.
  discriminate Hentry.
Qed.

Lemma log_last_entry (earlier earlier' : Log) (entry entry' : Call * Settled) :
  (earlier ++ [entry])%list = (earlier' ++ [entry'])%list -> entry = entry'.
Proof.
  intros H. now apply app_inj_tail in H.
Qed.

End LogFacts.

(** C5. In a composite operation (sendOneFuture, sendManyFuture: create a
    group, add the messages, schedule the group), a transport call that is
    rejected is the last call the operation issues, and the operation
    completes with that rejection: no later step of the sequence runs. *)
Theorem composite_stops_at_rejected_call :
  forall (ext : External) (this : SolapiMessageService.t)
         (operation : Composite) (transport : Transport) (log log' : Log)
         (result : Completion GroupMessageResponse)
         (earlier later : Log) (call : Call) (e : FetchError),
    runComposite this operation transport log = (result, log') ->
    log' = (log ++ earlier ++ (call, RejectedWith e) :: later)%list ->
    later = [] /\ result = Thrown (Rejected e).
Proof.
  intros ext this operation transport log log' result earlier later call e
         Hrun Hlog.
  assert (Hlater : later = []).
  { destruct (runComposite_cases this operation transport log)
      as (create & [(e0 & E) | [(add & e0 & E) | [(add & E)
                                  | [(add & schedule & e0 & E)
                                    | (add & schedule & res & E)]]]]);
      rewrite E in Hrun; injection Hrun as Hresult Hlog';
      rewrite <- Hlog' in Hlog; apply app_inv_head in Hlog;
      (eapply rejected_entry_is_last; [|exact Hlog]);
      cbn; repeat constructor. }
  split; [exact Hlater|]. subst later.
  destruct (runComposite_cases this operation transport log)
    as (create & [(e0 & E) | [(add & e0 & E) | [(add & E)
                                | [(add & schedule & e0 & E)
                                  | (add & schedule & res & E)]]]]);
    rewrite E in Hrun; injection Hrun as Hresult Hlog';
    rewrite <- Hlog' in Hlog; apply app_inv_head in Hlog; subst result.
  - apply (log_last_entry []) in Hlog. now inversion Hlog.
  - apply (log_last_entry [(create, Fulfilled)]) in Hlog. now inversion Hlog.
  - apply (log_last_entry [(create, Fulfilled)]) in Hlog. discriminate Hlog.
  - apply (log_last_entry [(create, Fulfilled); (add, Fulfilled)]) in Hlog.
    now inversion Hlog.
  - apply (log_last_entry [(create, Fulfilled); (add, Fulfilled)]) in Hlog.
    discriminate Hlog.
Qed.

Lemma composite_stops_at_rejected_call_witness :
  runComposite service futureHi (rejectingAt 1 "boom" allFailedListed) []
  = (Thrown (Rejected (ext:=sample) "boom"),
     [(createCall, Fulfilled); (addCall, RejectedWith (ext:=sample) "boom")])
  /\ [(createCall, Fulfilled); (addCall, RejectedWith (ext:=sample) "boom")]
     = ([] ++ [(createCall, Fulfilled)]
        ++ (addCall, RejectedWith (ext:=sample) "boom") :: [])%list
  /\ (@nil (@Call sample * @Settled sample) = []
      /\ Thrown (A:=@GroupMessageResponse sample) (Rejected (ext:=sample) "boom")
         = Thrown (Rejected (ext:=sample) "boom")).
Proof.
  assert (Hrun : runComposite service futureHi
                   (rejectingAt 1 "boom" allFailedListed) []
                 = (Thrown (Rejected (ext:=sample) "boom"),
                    [(createCall, Fulfilled);
                     (addCall, RejectedWith (ext:=sample) "boom")]))
    by reflexivity.
  assert (Hlog : [(createCall, Fulfilled);
                  (addCall, RejectedWith (ext:=sample) "boom")]
                 = ([] ++ [(createCall, Fulfilled)]
                    ++ (addCall, RejectedWith (ext:=sample) "boom") :: [])%list)
    by reflexivity.
  split; [exact Hrun|]. split; [exact Hlog|].
  exact (composite_stops_at_rejected_call sample service futureHi
           (rejectingAt 1 "boom" allFailedListed) [] _ _
           [(createCall, Fulfilled)] [] addCall "boom" Hrun Hlog).
Defined.

(** C1, as the code has it. When the transport answers the request of
    [send] with a response, [send] completes with a
    [MessageNotReceivedError] carrying exactly the response's
    [failedMessageList] if that list is not empty and the total count
    equals the registered-failed count; in every other case, an empty
    list with equal counts included, it returns the response as it is. *)
Theorem send_policy_on_response :
  forall (ext : External) (this : SolapiMessageService.t)
         (messages : MessageInput)
         (requestConfigParameter : option (SendRequestConfig.t Date))
         (transport : Transport) (log : Log)
         (res : DetailGroupMessageResponse),
    nonEmpty messages = true ->
    transport RDetailGroupMessageResponse (map fst log)
      (send_call this (messagesOf messages) requestConfigParameter)
    = inr res ->
    (failedMessageList res <> []
     /\ total (count (groupInfo res)) = registeredFailed (count (groupInfo res)) ->
     fst (send this messages requestConfigParameter transport log)
     = Thrown (MessageNotReceivedError (failedMessageList res)))
    /\ (failedMessageList res = []
        \/ total (count (groupInfo res)) <> registeredFailed (count (groupInfo res)) ->
        fst (send this messages requestConfigParameter transport log)
        = Returned res).
Proof.
  intros ext this messages cfg transport log res Hinput Hanswer.
  rewrite (send_run this messages cfg transport log Hinput).
  cbv zeta. rewrite Hanswer. cbn [fst].
  split.
  - intros [Hlist Hcount].
    destruct (failedMessageList res) as [|failed rest]; [contradiction|].
    rewrite Hcount, Z.eqb_refl. reflexivity.
  - intros [Hlist | Hcount].
    + rewrite Hlist. reflexivity.
    + apply Z.eqb_neq in Hcount. rewrite Hcount, andb_false_r. reflexivity.
Qed.

Lemma send_policy_on_response_witness :
  nonEmpty (Single (ext:=sample) "hi") = true
  /\ answering allFailedListed RDetailGroupMessageResponse (map fst noCalls)
       (send_call service (messagesOf (Single (ext:=sample) "hi")) None)
     = inr allFailedListed
  /\ ((@failedMessageList sample allFailedListed <> []
       /\ @total sample (@count sample (@groupInfo sample allFailedListed))
          = @registeredFailed sample (@count sample (@groupInfo sample allFailedListed)) ->
       fst (send service (Single (ext:=sample) "hi") None
              (answering allFailedListed) noCalls)
       = Thrown (MessageNotReceivedError (ext:=sample)
                   (@failedMessageList sample allFailedListed)))
      /\ (@failedMessageList sample allFailedListed = []
          \/ @total sample (@count sample (@groupInfo sample allFailedListed))
             <> @registeredFailed sample (@count sample (@groupInfo sample allFailedListed)) ->
          fst (send service (Single (ext:=sample) "hi") None
                 (answering allFailedListed) noCalls)
          = Returned allFailedListed)).
Proof.
  split; [reflexivity|]. split; [reflexivity|].
  apply (send_policy_on_response sample service (Single (ext:=sample) "hi")
           None (answering allFailedListed) noCalls allFailedListed);
    reflexivity.
Defined.

(** C1 as stated fails: the counts of [allFailedUnlisted] are equal (one
    message, one registered failure) and the transport answers [send] with
    it, yet [send] returns the response and raises no
    [MessageNotReceivedError], because the failed-message list is empty. *)
Lemma send_returns_when_all_failed_unlisted :
  @total sample (@count sample (@groupInfo sample allFailedUnlisted))
  = @registeredFailed sample (@count sample (@groupInfo sample allFailedUnlisted))
  /\ answering allFailedUnlisted RDetailGroupMessageResponse (map fst noCalls)
       (send_call service (messagesOf (Single (ext:=sample) "hi")) None)
     = inr allFailedUnlisted
  /\ fst (send service (Single (ext:=sample) "hi") None
            (answering allFailedUnlisted) noCalls)
     = Returned allFailedUnlisted
  /\ fst (send service (Single (ext:=sample) "hi") None
            (answering allFailedUnlisted) noCalls)
     <> Thrown (MessageNotReceivedError (ext:=sample)
                  (@failedMessageList sample allFailedUnlisted)).
Proof.
  assert (Hreturned : fst (send service (Single (ext:=sample) "hi") None
                             (answering allFailedUnlisted) noCalls)
                      = Returned allFailedUnlisted) by reflexivity.
  repeat split; try reflexivity.
  rewrite Hreturned. discriminate.
Qed.

(** C6. For a well-formed input, a bare message or a non-empty array of
    any size, [send] issues exactly one call to the transport: the log
    grows by the one request that carries all the messages. *)
Theorem send_issues_one_call :
  forall (ext : External) (this : SolapiMessageService.t)
         (messages : MessageInput)
         (requestConfigParameter : option (SendRequestConfig.t Date))
         (transport : Transport) (log : Log),
    nonEmpty messages = true ->
    exists settled : Settled,
      snd (send this messages requestConfigParameter transport log)
      = (log ++ [(send_call this (messagesOf messages) requestConfigParameter,
                  settled)])%list.
Proof.
  intros ext this messages cfg transport log Hinput.
  rewrite (send_run this messages cfg transport log Hinput). cbv zeta.
  destruct (transport RDetailGroupMessageResponse (map fst log)
              (send_call this (messagesOf messages) cfg)) as [e|res].
  - exists (RejectedWith e). reflexivity.
  - exists Fulfilled. reflexivity.
Qed.

Lemma send_issues_one_call_witness :
  nonEmpty (Batch (ext:=sample) ["a"; "b"; "c"]) = true
  /\ exists settled : Settled,
       snd (send service (Batch (ext:=sample) ["a"; "b"; "c"]) None
              (answering allFailedListed) noCalls)
       = (noCalls ++ [(send_call service
                    (messagesOf (Batch (ext:=sample) ["a"; "b"; "c"])) None,
                  settled)])%list.
Proof.
  split; [reflexivity|].
  apply (send_issues_one_call sample service
           (Batch (ext:=sample) ["a"; "b"; "c"]) None
           (answering allFailedListed) noCalls).
  reflexivity.
Defined.

(** C9. [send] with a bare message behaves as [send] with the one-element
    array holding it: both collect the same one-element payload, and the
    two calls are the same computation, so they issue the same request
    and complete alike against every transport. *)
Theorem send_single_as_singleton_array :
  forall (ext : External) (this : SolapiMessageService.t)
         (message : MessageParameter)
         (requestConfigParameter : option (SendRequestConfig.t Date)),
    send_payload (Single message) = Returned [newMessage message]
    /\ send_payload (Batch [message]) = Returned [newMessage message]
    /\ send this (Single message) requestConfigParameter
       = send this (Batch [message]) requestConfigParameter
    /\ forall (transport : Transport) (log : Log),
         send this (Single message) requestConfigParameter transport log
         = send this (Batch [message]) requestConfigParameter transport log.
Proof.
  intros. repeat split; reflexivity.
Qed.

(** C10. [getKakaoChannels] issues one request; when the transport
    answers it, the finalized response has the answer's [limit],
    [startKey] and [nextKey] unchanged and its [channelList] is the
    answer's [channelList] with [KakaoChannel] built from each element, in
    the same order and of the same length. *)
Theorem getKakaoChannels_wraps_channels :
  forall (ext : External) (this : SolapiMessageService.t)
         (data : option GetKakaoChannelsRequest)
         (transport : Transport) (log : Log),
    getKakaoChannels this data transport log
    = match transport RGetKakaoChannelsResponse (map fst log)
              (getKakaoChannels_call this data) with
      | inl e =>
          (Thrown (Rejected e),
           (log ++ [(getKakaoChannels_call this data, RejectedWith e)])%list)
      | inr response =>
          (Returned
             (GetKakaoChannelsFinalizeResponse.mk
                (GetKakaoChannelsResponse.limit response)
                (GetKakaoChannelsResponse.startKey response)
                (GetKakaoChannelsResponse.nextKey response)
                (map newKakaoChannel
                     (GetKakaoChannelsResponse.channelList response))),
           (log ++ [(getKakaoChannels_call this data, Fulfilled)])%list)
      end.
Proof.
  intros ext this data transport log.
  unfold getKakaoChannels, getKakaoChannels_call, bind, defaultFetcher, ret.
  match goal with
  | |- context [transport ?R ?h ?c] => destruct (transport R h c) as [e|response]
  end.
  - reflexivity.
  - rewrite fold_left_push. reflexivity.
Qed.

(** ** Further properties of the blacklist finalizer and of [getBlacks] *)

(** X1. The blacklist finalizer passes [senderNumber], [startKey] and
    [limit] through unchanged, absent ones staying absent, and sets [type]
    to ['DENIAL'] whatever the request holds; the request [getBlacks]
    serializes has that type with or without data. *)
Theorem finalizer_passes_fields_through :
  forall (ext : External) (data : option (GetBlacksRequest.t Date))
         (parameter : GetBlacksRequest.t Date),
    GetBlacksFinalizeRequest.type
      (GetBlacksFinalizeRequest.constructor formatWithTransfer parameter)
    = "DENIAL"
    /\ GetBlacksFinalizeRequest.senderNumber
         (GetBlacksFinalizeRequest.constructor formatWithTransfer parameter)
       = GetBlacksRequest.senderNumber parameter
    /\ GetBlacksFinalizeRequest.startKey
         (GetBlacksFinalizeRequest.constructor formatWithTransfer parameter)
       = GetBlacksRequest.startKey parameter
    /\ GetBlacksFinalizeRequest.limit
         (GetBlacksFinalizeRequest.constructor formatWithTransfer parameter)
       = GetBlacksRequest.limit parameter
    /\ GetBlacksFinalizeRequest.type (getBlacks_payload data) = "DENIAL".
Proof.
  intros ext data parameter.
  destruct (constructor_copies formatWithTransfer parameter)
    as (Htype & Hsender & Hstart & Hlimit).
  repeat split; try assumption.
  destruct data as [request|]; cbn [getBlacks_payload].
  - apply constructor_copies.
  - reflexivity.
Qed.

(** X2. [getBlacks] called without data issues the same request and
    completes alike as [getBlacks] called with the empty request object:
    finalizing [{}] gives the default [{type: 'DENIAL'}]. *)
Theorem getBlacks_without_data_as_empty_request :
  forall (ext : External) (this : SolapiMessageService.t),
    getBlacks_payload (Some (GetBlacksRequest.mk None None None None None))
    = getBlacks_payload None
    /\ getBlacks this (Some (GetBlacksRequest.mk None None None None None))
       = getBlacks this None.
Proof.
  intros ext this. split; reflexivity.
Qed.

(** ** Further properties of [send] *)

(** X3. [send] without a request configuration is [send] with the empty
    configuration object: each optional setting is read as undefined. *)
Theorem send_without_config_as_empty_config :
  forall (ext : External) (this : SolapiMessageService.t)
         (messages : MessageInput),
    send this messages None
    = send this messages (Some (SendRequestConfig.mk None None None None)).
Proof.
  intros ext this messages. reflexivity.
Qed.

Section SendFacts.
Context {ext : External}.

Lemma nonEmpty_false (messages : MessageInput) :
  nonEmpty messages = false -> messages = Batch [].
Proof.
  destruct messages as [message|[|value values]]; cbn; intros H;
    try discriminate; reflexivity.
Qed.

(** The three ways [send] completes on a well-formed input. *)
Lemma send_completions (this : SolapiMessageService.t) (messages : MessageInput)
    (requestConfigParameter : option (SendRequestConfig.t Date))
    (transport : Transport) (log : Log) :
  nonEmpty messages = true ->
  (exists e,
      transport RDetailGroupMessageResponse (map fst log)
        (send_call this (messagesOf messages) requestConfigParameter) = inl e
      /\ fst (send this messages requestConfigParameter transport log)
         = Thrown (Rejected e))
  \/ (exists res,
        transport RDetailGroupMessageResponse (map fst log)
          (send_call this (messagesOf messages) requestConfigParameter) = inr res
        /\ failedMessageList res <> []
        /\ total (count (groupInfo res)) = registeredFailed (count (groupInfo res))
        /\ fst (send this messages requestConfigParameter transport log)
           = Thrown (MessageNotReceivedError (failedMessageList res)))
  \/ (exists res,
        transport RDetailGroupMessageResponse (map fst log)
          (send_call this (messagesOf messages) requestConfigParameter) = inr res
        /\ (failedMessageList res = []
            \/ total (count (groupInfo res))
               <> registeredFailed (count (groupInfo res)))
        /\ fst (send this messages requestConfigParameter transport log)
           = Returned res).
Proof.
  intros Hinput.
  rewrite (send_run this messages requestConfigParameter transport log Hinput).
  cbv zeta.
  destruct (transport RDetailGroupMessageResponse (map fst log)
              (send_call this (messagesOf messages) requestConfigParameter))
    as [e|res].
  - left. exists e. split; reflexivity.
  - right. cbn [fst].
    destruct (failedMessageList res) as [|failed rest] eqn:Hlist.
    + right. exists res. rewrite Hlist. repeat split; auto.
    + destruct (Z.eqb_spec (total (count (groupInfo res)))
                           (registeredFailed (count (groupInfo res))))
        as [Hcount|Hcount].
      * left. exists res. rewrite Hlist. repeat split; auto. discriminate.
      * right. exists res. rewrite Hlist. repeat split; auto.
Qed.

End SendFacts.

(** X4. [send] completes with a [BadRequestError] exactly when its input
    is the empty array: a bare message never fails validation, and no
    answer or rejection of the transport is turned into this error. *)
Theorem send_validation_error_iff_empty_array :
  forall (ext : External) (this : SolapiMessageService.t)
         (messages : MessageInput)
         (requestConfigParameter : option (SendRequestConfig.t Date))
         (transport : Transport) (log : Log),
    (exists message : string,
        fst (send this messages requestConfigParameter transport log)
        = Thrown (BadRequestError message))
    <-> messages = Batch [].
Proof.
  intros ext this messages cfg transport log. split.
  - intros [message Hthrown].
    destruct (nonEmpty messages) eqn:Hinput.
    + destruct (send_completions this messages cfg transport log Hinput)
        as [(e & _ & H) | [(res & _ & _ & _ & H) | (res & _ & _ & H)]];
        rewrite H in Hthrown; discriminate.
    + now apply nonEmpty_false.
  - intros ->. eexists. reflexivity.
Qed.

(** X5. Whenever [send] completes with a [MessageNotReceivedError], the
    transport had answered the request, the error carries exactly the
    answer's [failedMessageList], that list is not empty, and the answer's
    total count equals its registered-failed count. *)
Theorem send_policy_error_carries_failures :
  forall (ext : External) (this : SolapiMessageService.t)
         (messages : MessageInput)
         (requestConfigParameter : option (SendRequestConfig.t Date))
         (transport : Transport) (log : Log) (failed : list FailedMessage),
    fst (send this messages requestConfigParameter transport log)
    = Thrown (MessageNotReceivedError failed) ->
    failed <> []
    /\ exists res : DetailGroupMessageResponse,
         transport RDetailGroupMessageResponse (map fst log)
           (send_call this (messagesOf messages) requestConfigParameter)
         = inr res
         /\ failed = failedMessageList res
         /\ total (count (groupInfo res)) = registeredFailed (count (groupInfo res)).
Proof.
  intros ext this messages cfg transport log failed Hthrown.
  destruct (nonEmpty messages) eqn:Hinput.
  - destruct (send_completions this messages cfg transport log Hinput)
      as [(e & _ & H) | [(res & Hanswer & Hlist & Hcount & H)
                        | (res & _ & _ & H)]];
      rewrite H in Hthrown; try discriminate.
    injection Hthrown as <-. split; [exact Hlist|].
    exists res. repeat split; assumption.
  - apply nonEmpty_false in Hinput. subst messages. discriminate Hthrown.
Qed.

Lemma send_policy_error_carries_failures_witness :
  fst (send service (Single (ext:=sample) "hi") None
         (answering allFailedListed) noCalls)
  = Thrown (MessageNotReceivedError (ext:=sample) ["01000000000"])
  /\ (["01000000000"] <> []
      /\ exists res : @DetailGroupMessageResponse sample,
           answering allFailedListed RDetailGroupMessageResponse
             (map fst noCalls)
             (send_call service (messagesOf (Single (ext:=sample) "hi")) None)
           = inr res
           /\ ["01000000000"] = @failedMessageList sample res
           /\ @total sample (@count sample (@groupInfo sample res))
              = @registeredFailed sample (@count sample (@groupInfo sample res))).
Proof.
  split; [reflexivity|].
  apply (send_policy_error_carries_failures sample service
           (Single (ext:=sample) "hi") None (answering allFailedListed)
           noCalls ["01000000000"]).
  reflexivity.
Defined.

(** X6. When the transport rejects the request of [send], [send]
    completes with that same rejection, after that one call: the error of
    the transport reaches the caller unchanged. *)
Theorem send_propagates_rejection :
  forall (ext : External) (this : SolapiMessageService.t)
         (messages : MessageInput)
         (requestConfigParameter : option (SendRequestConfig.t Date))
         (transport : Transport) (log : Log) (e : FetchError),
    nonEmpty messages = true ->
    transport RDetailGroupMessageResponse (map fst log)
      (send_call this (messagesOf messages) requestConfigParameter)
    = inl e ->
    send this messages requestConfigParameter transport log
    = (Thrown (Rejected e),
       (log ++ [(send_call this (messagesOf messages) requestConfigParameter,
                 RejectedWith e)])%list).
Proof.
  intros ext this messages cfg transport log e Hinput Hrejected.
  rewrite (send_run this messages cfg transport log Hinput). cbv zeta.
  rewrite Hrejected. reflexivity.
Qed.

Lemma send_propagates_rejection_witness :
  nonEmpty (Batch (ext:=sample) ["a"; "b"]) = true
  /\ rejectingAt 0 "ECONNRESET" allFailedListed RDetailGroupMessageResponse
       (map fst noCalls)
       (send_call service (messagesOf (Batch (ext:=sample) ["a"; "b"])) None)
     = inl "ECONNRESET"
  /\ send service (Batch (ext:=sample) ["a"; "b"]) None
       (rejectingAt 0 "ECONNRESET" allFailedListed) noCalls
     = (Thrown (Rejected (ext:=sample) "ECONNRESET"),
        (noCalls
         ++ [(send_call service (messagesOf (Batch (ext:=sample) ["a"; "b"])) None,
              RejectedWith (ext:=sample) "ECONNRESET")])%list).
Proof.
  split; [reflexivity|]. split; [reflexivity|].
  apply (send_propagates_rejection sample service
           (Batch (ext:=sample) ["a"; "b"]) None
           (rejectingAt 0 "ECONNRESET" allFailedListed) noCalls "ECONNRESET");
    reflexivity.
Defined.

(** X7. Whatever [send] returns is the answer of the transport to its
    request, unaltered, and that answer either lists no failed message or
    has a total count different from its registered-failed count. *)
Theorem send_returns_only_transport_answer :
  forall (ext : External) (this : SolapiMessageService.t)
         (messages : MessageInput)
         (requestConfigParameter : option (SendRequestConfig.t Date))
         (transport : Transport) (log : Log)
         (res : DetailGroupMessageResponse),
    fst (send this messages requestConfigParameter transport log)
    = Returned res ->
    transport RDetailGroupMessageResponse (map fst log)
      (send_call this (messagesOf messages) requestConfigParameter)
    = inr res
    /\ (failedMessageList res = []
        \/ total (count (groupInfo res))
           <> registeredFailed (count (groupInfo res))).
Proof.
  intros ext this messages cfg transport log res Hreturned.
  destruct (nonEmpty messages) eqn:Hinput.
  - destruct (send_completions this messages cfg transport log Hinput)
      as [(e & _ & H) | [(res' & _ & _ & _ & H)
                        | (res' & Hanswer & Hpolicy & H)]];
      rewrite H in Hreturned; try discriminate.
    injection Hreturned as <-. split; assumption.
  - apply nonEmpty_false in Hinput. subst messages. discriminate Hreturned.
Qed.

Lemma send_returns_only_transport_answer_witness :
  fst (send service (Batch (ext:=sample) ["a"; "b"]) None
         (answering partlyFailed) noCalls)
  = Returned partlyFailed
  /\ (answering partlyFailed RDetailGroupMessageResponse (map fst noCalls)
        (send_call service (messagesOf (Batch (ext:=sample) ["a"; "b"])) None)
      = inr partlyFailed
      /\ (@failedMessageList sample partlyFailed = []
          \/ @total sample (@count sample (@groupInfo sample partlyFailed))
             <> @registeredFailed sample
                  (@count sample (@groupInfo sample partlyFailed)))).
Proof.
  split; [reflexivity|].
  apply (send_returns_only_transport_answer sample service
           (Batch (ext:=sample) ["a"; "b"]) None (answering partlyFailed)
           noCalls partlyFailed).
  reflexivity.
Defined.

(** ** Further properties of the composite operations *)

Section CompositeFacts.
Context {ext : External}.
Import SolapiMessageService.

(** A composite operation step by step: each request, the history the
    transport sees with it, and the completion by how the transport
    settles it and by whether the date can be formatted. *)
Lemma runComposite_run (this : t) (operation : Composite)
    (transport : Transport) (log : Log) :
  let create :=
    createGroup_call this (composite_allowDuplicates operation)
      (composite_appId operation) in
  let add := fun created : GroupMessageResponse =>
    addMessagesToGroup_call this (groupId created)
      (composite_messages operation) in
  let schedule := fun created : GroupMessageResponse =>
    reserveGroup_call this (groupId created) in
  runComposite this operation transport log
  = match transport RGroupMessageResponse (map fst log) create with
    | inl e =>
        (Thrown (Rejected e), (log ++ [(create, RejectedWith e)])%list)
    | inr created =>
        match transport RAddMessageResponse (map fst log ++ [create])%list
                (add created) with
        | inl e =>
            (Thrown (Rejected e),
             (log ++ [(create, Fulfilled); (add created, RejectedWith e)])%list)
        | inr _ =>
            match formatISO
                    (stringDateTransfer (composite_scheduledDate operation)) with
            | None =>
                (Thrown RangeError,
                 (log ++ [(create, Fulfilled); (add created, Fulfilled)])%list)
            | Some formatted =>
                match transport RGroupMessageResponse
                        (map fst log ++ [create; add created])%list
                        (schedule created formatted) with
                | inl e =>
                    (Thrown (Rejected e),
                     (log ++ [(create, Fulfilled); (add created, Fulfilled);
                              (schedule created formatted, RejectedWith e)])%list)
                | inr scheduled =>
                    (Returned scheduled,
                     (log ++ [(create, Fulfilled); (add created, Fulfilled);
                              (schedule created formatted, Fulfilled)])%list)
                end
            end
        end
    end.
Proof.
  intros create add schedule. subst create add schedule.
  destruct operation as [message scheduledDate
                        |messages scheduledDate allowDuplicates appId];
    cbn [runComposite composite_allowDuplicates composite_appId
         composite_messages composite_scheduledDate];
    unfold sendOneFuture, sendManyFuture, createGroup, addMessagesToGroup,
      reserveGroup, bind, defaultFetcher, ret, throw, createGroup_call,
      addMessagesToGroup_call, reserveGroup_call;
    cbn [nullish];
    (match goal with
     | |- context [transport RGroupMessageResponse (map fst log) ?c] =>
         destruct (transport RGroupMessageResponse (map fst log) c)
           as [e|created]
     end; [reflexivity|]);
    cbv beta iota; rewrite !map_app; cbn [map fst];
    (match goal with
     | |- context [transport RAddMessageResponse ?h ?c] =>
         destruct (transport RAddMessageResponse h c) as [e|added]
     end; [rewrite <- app_assoc; reflexivity|]);
    cbv beta iota;
    (destruct (formatISO (stringDateTransfer scheduledDate)) as [formatted|];
     [|rewrite <- app_assoc; reflexivity]);
    cbv beta iota; rewrite <- ?app_assoc; cbn [app];
    rewrite ?map_app; cbn [map fst];
    (match goal with
     | |- context [transport RGroupMessageResponse ?h ?c] =>
         destruct (transport RGroupMessageResponse h c) as [e|scheduled]
     end; rewrite <- ?app_assoc; reflexivity).
Qed.

End CompositeFacts.

Section LogArithmetic.
Context {A : Type}.

Lemma skipn_length_app (earlier later : list A) :
  skipn (length earlier) (earlier ++ later) = later.
Proof.
  induction earlier as [|entry earlier IH]; [reflexivity|exact IH].
Qed.

End LogArithmetic.

(** X8. When the date of a composite operation can be formatted and the
    transport answers all three requests, the operation returns the answer
    to the third and has issued, in this order: the create-group request,
    the add-messages request for the group id of the first answer, and the
    schedule request for that same group id with the normalised, formatted
    date. *)
Theorem composite_success_path :
  forall (ext : External) (this : SolapiMessageService.t)
         (operation : Composite) (transport : Transport) (log : Log)
         (formatted : string)
         (created : GroupMessageResponse) (added : AddMessageResponse)
         (scheduled : GroupMessageResponse),
    formatISO (stringDateTransfer (composite_scheduledDate operation))
    = Some formatted ->
    transport RGroupMessageResponse (map fst log)
      (createGroup_call this (composite_allowDuplicates operation)
         (composite_appId operation))
    = inr created ->
    transport RAddMessageResponse
      (map fst log
       ++ [createGroup_call this (composite_allowDuplicates operation)
             (composite_appId operation)])%list
      (addMessagesToGroup_call this (groupId created)
         (composite_messages operation))
    = inr added ->
    transport RGroupMessageResponse
      (map fst log
       ++ [createGroup_call this (composite_allowDuplicates operation)
             (composite_appId operation);
           addMessagesToGroup_call this (groupId created)
             (composite_messages operation)])%list
      (reserveGroup_call this (groupId created) formatted)
    = inr scheduled ->
    runComposite this operation transport log
    = (Returned scheduled,
       (log
        ++ [(createGroup_call this (composite_allowDuplicates operation)
               (composite_appId operation), Fulfilled);
            (addMessagesToGroup_call this (groupId created)
               (composite_messages operation), Fulfilled);
            (reserveGroup_call this (groupId created) formatted,
             Fulfilled)])%list).
Proof.
  intros ext this operation transport log formatted created added scheduled
         Hformat Hcreate Hadd Hschedule.
  rewrite runComposite_run. cbv zeta.
  rewrite Hcreate, Hadd, Hformat, Hschedule. reflexivity.
Qed.

Lemma composite_success_path_witness :
  @formatISO sample
    (@stringDateTransfer sample (composite_scheduledDate futureHi))
  = Some "2024-01-01T00:00:00+09:00"
  /\ answering allFailedListed RGroupMessageResponse (map fst noCalls)
       (createGroup_call service (composite_allowDuplicates futureHi)
          (composite_appId futureHi))
     = inr "G4V20240101000000"
  /\ answering allFailedListed RAddMessageResponse
       (map fst noCalls
        ++ [createGroup_call service (composite_allowDuplicates futureHi)
              (composite_appId futureHi)])%list
       (addMessagesToGroup_call service
          (@groupId sample "G4V20240101000000") (composite_messages futureHi))
     = inr tt
  /\ answering allFailedListed RGroupMessageResponse
       (map fst noCalls
        ++ [createGroup_call service (composite_allowDuplicates futureHi)
              (composite_appId futureHi);
            addMessagesToGroup_call service
              (@groupId sample "G4V20240101000000")
              (composite_messages futureHi)])%list
       (reserveGroup_call (ext:=sample) service
          (@groupId sample "G4V20240101000000") "2024-01-01T00:00:00+09:00")
     = inr "G4V20240101000000"
  /\ runComposite service futureHi (answering allFailedListed) noCalls
     = (Returned (ext:=sample) "G4V20240101000000",
        [(createCall, Fulfilled); (addCall, Fulfilled);
         (scheduleCall, Fulfilled)]).
Proof.
  split; [reflexivity|].
  split; [reflexivity|]. split; [reflexivity|]. split; [reflexivity|].
  exact (composite_success_path sample service futureHi
           (answering allFailedListed) noCalls "2024-01-01T00:00:00+09:00"
           "G4V20240101000000" tt "G4V20240101000000"
           eq_refl eq_refl eq_refl eq_refl).
Defined.

(** X9. A composite operation validates nothing before it talks to the
    service: whatever the messages, an empty list included, its first
    request is the create-group request, with [allowDuplicates] false
    unless given, and at most two requests follow. *)
Theorem composite_begins_with_createGroup :
  forall (ext : External) (this : SolapiMessageService.t)
         (operation : Composite) (transport : Transport) (log : Log),
    exists (settled : Settled) (rest : Log),
      snd (runComposite this operation transport log)
      = (log
         ++ (createGroup_call this (composite_allowDuplicates operation)
               (composite_appId operation), settled) :: rest)%list
      /\ (length rest <= 2)%nat.
Proof.
  intros ext this operation transport log.
  rewrite runComposite_run. cbv zeta.
  destruct (transport RGroupMessageResponse (map fst log) _) as [e|created].
  - exists (RejectedWith e), []. split; [reflexivity|cbn; lia].
  - destruct (transport RAddMessageResponse _ _) as [e|added].
    + exists Fulfilled. eexists. split; [reflexivity|cbn; lia].
    + destruct (formatISO _) as [formatted|].
      * destruct (transport RGroupMessageResponse _ _) as [e|scheduled];
          exists Fulfilled; eexists; (split; [reflexivity|cbn; lia]).
      * exists Fulfilled. eexists. split; [reflexivity|cbn; lia].
Qed.

(** X10. A composite operation completes in one of three ways only. It
    returns a response, and then exactly three requests were issued and
    all three fulfilled. Or it fails with the rejection of the transport,
    and then the rejected request is the last of at most three, those
    before it fulfilled. Or it fails with the RangeError of [formatISO],
    and then the date could not be formatted and exactly the two requests
    before the schedule request were issued, both fulfilled: the group is
    created and filled but not scheduled. It never fails with a validation
    error or with a [MessageNotReceivedError]. *)
Theorem composite_completions :
  forall (ext : External) (this : SolapiMessageService.t)
         (operation : Composite) (transport : Transport) (log : Log),
    match fst (runComposite this operation transport log) with
    | Returned _ =>
        settlementsOf this (Future operation) transport log
        = [Fulfilled; Fulfilled; Fulfilled]
    | Thrown (Rejected e) =>
        exists fulfilled : nat,
          (fulfilled <= 2)%nat
          /\ settlementsOf this (Future operation) transport log
             = (repeat Fulfilled fulfilled ++ [RejectedWith e])%list
    | Thrown RangeError =>
        formatISO (stringDateTransfer (composite_scheduledDate operation))
        = None
        /\ settlementsOf this (Future operation) transport log
           = [Fulfilled; Fulfilled]
    | Thrown (BadRequestError _) => False
    | Thrown (MessageNotReceivedError _) => False
    end.
Proof.
  intros ext this operation transport log.
  unfold settlementsOf. cbn [logAfter].
  rewrite runComposite_run. cbv zeta.
  destruct (transport RGroupMessageResponse (map fst log) _) as [e|created].
  - cbn [fst snd]. rewrite skipn_length_app. exists 0. split; [lia|reflexivity].
  - destruct (transport RAddMessageResponse _ _) as [e|added].
    + cbn [fst snd]. rewrite skipn_length_app.
      exists 1. split; [lia|reflexivity].
    + destruct (formatISO _) as [formatted|] eqn:Hformat.
      * destruct (transport RGroupMessageResponse _ _) as [e|scheduled];
          cbn [fst snd]; rewrite skipn_length_app.
        -- exists 2. split; [lia|reflexivity].
        -- reflexivity.
      * cbn [fst snd]. rewrite skipn_length_app. split; reflexivity.
Qed.

(** X11. [sendOneFuture] is [sendManyFuture] on the one-element list with
    [allowDuplicates] and [appId] left out; and leaving [allowDuplicates]
    out, in [sendManyFuture] as in [createGroup], is passing [false]. *)
Theorem sendOneFuture_as_sendManyFuture :
  forall (ext : External) (this : SolapiMessageService.t)
         (message : Message) (messages : list Message)
         (scheduledDate : StringOrDate Date) (appId : option string),
    sendOneFuture this message scheduledDate
    = sendManyFuture this [message] scheduledDate None None
    /\ sendManyFuture this messages scheduledDate None appId
       = sendManyFuture this messages scheduledDate (Some false) appId
    /\ createGroup this None appId = createGroup this (Some false) appId.
Proof.
  intros. repeat split; reflexivity.
Qed.

(** ** Properties of the requests the facade issues *)

Section UrlFacts.

Lemma prefix_append (base rest : string) :
  String.prefix base (base ++ rest) = true.
Proof.
  induction base as [|c base IH]; cbn.
  - destruct rest; reflexivity.
  - destruct (Ascii.ascii_dec c c) as [_|Hneq]; [exact IH|contradiction].
Qed.





End UrlFacts.

Section RequestFacts.
Context {ext : External}.
Import SolapiMessageService.


Lemma bind_ret_log {A B : Type} (m : Async A) (f : A -> B)
    (transport : Transport) (log : Log) :
  snd (bind m (fun a => ret (f a)) transport log) = snd (m transport log).
Proof.
  unfold bind, ret. destruct (m transport log) as [[a|e] log']; reflexivity.
Qed.

End RequestFacts.

Section OperationFacts.
Context {ext : External}.
Import SolapiMessageService.



Lemma ofService_request (this : t) (method rest : string)
    (payload : option Payload) :
  In method ["GET"; "POST"; "PUT"; "DELETE"] ->
  (method = "GET" \/ method = "DELETE" -> payload = None) ->
  ofService this
    (mkCall (authInfo this) (RequestConfig.mk method (baseUrl this ++ rest))
            payload).
Proof.
  intros Hmethod Hbody. unfold ofService. cbn.
  repeat split; try assumption. apply prefix_append.
Qed.

End OperationFacts.

(** Solves [ofService] for a request written out as the facade builds it. *)
Ltac of_service :=
  apply ofService_request;
  [ cbn; tauto
  | intros [Hmethod|Hmethod]; first [discriminate Hmethod | reflexivity] ].

(** Settles an operation that is one call of the transport. *)
Ltac one_call transport :=
  cbv zeta; unfold bind, defaultFetcher, ret;
  match goal with
  | |- context [transport ?R ?h ?c] => destruct (transport R h c)
  end;
  cbn [snd]; eexists; (split; [reflexivity|]); (split; [cbn; lia|]);
  (apply Forall_cons; [cbn [fst]; of_service|apply Forall_nil]).

(** X12. Every operation only appends to the log of transport calls, at
    most one request (three for a composite operation), and every request
    it issues carries the credentials of the service, has a URL that
    begins with the base URL of the service, uses one of GET, POST, PUT
    and DELETE, and has no body when it is a GET or a DELETE. *)
Theorem requests_are_of_the_service :
  forall (ext : External) (this : SolapiMessageService.t)
         (operation : Operation) (transport : Transport) (log : Log),
    exists calls : Log,
      logAfter this operation transport log = (log ++ calls)%list
      /\ (length calls <= maxCalls operation)%nat
      /\ Forall (fun entry => ofService this (fst entry)) calls.
Proof.
  intros ext this operation transport log.
  destruct operation as [messages cfg|allowDuplicates appId|g messages|g date
                        |operation|g|g|g|g|data|data];
    cbn [logAfter maxCalls].
  - destruct (nonEmpty messages) eqn:Hinput.
    + rewrite (send_run this messages cfg transport log Hinput). cbv zeta.
      destruct (transport RDetailGroupMessageResponse (map fst log) _);
        cbn [snd]; eexists; (split; [reflexivity|]); (split; [cbn; lia|]);
        (apply Forall_cons;
         [cbn [fst]; unfold send_call; of_service|apply Forall_nil]).
    + apply nonEmpty_false in Hinput. subst messages.
      exists []. cbn. rewrite app_nil_r. repeat split; [lia|apply Forall_nil].
  - unfold createGroup. one_call transport.
  - unfold addMessagesToGroup. one_call transport.
  - unfold reserveGroup. destruct (formatISO date) as [formatted|].
    + one_call transport.
    + exists []. unfold throw. cbn. rewrite app_nil_r.
      repeat split; [lia|apply Forall_nil].
  - rewrite runComposite_run. cbv zeta.
    destruct (transport RGroupMessageResponse (map fst log) _) as [e|created];
      [|destruct (transport RAddMessageResponse _ _) as [e|added];
        [|destruct (formatISO _) as [formatted|];
          [destruct (transport RGroupMessageResponse _ _) as [e|scheduled]|]]];
      cbn [snd]; eexists; (split; [reflexivity|]); (split; [cbn; lia|]);
      repeat (apply Forall_cons;
              [cbn [fst];
               unfold createGroup_call, addMessagesToGroup_call,
                 reserveGroup_call; of_service|]);
      apply Forall_nil.
  - unfold sendGroup. one_call transport.
  - unfold getGroup. one_call transport.
  - unfold removeReservationToGroup. one_call transport.
  - unfold removeGroup. one_call transport.
  - unfold getKakaoChannels. one_call transport.
  - unfold getBlacks. one_call transport.
Qed.



(** X14. A group id is put into the URL as it is, neither checked nor
    encoded: removing the group whose id is [g] followed by [/schedule] is
    the very computation that cancels the reservation of group [g]. *)
Theorem removeGroup_of_schedule_path :
  forall (ext : External) (this : SolapiMessageService.t) (g : GroupId),
    removeGroup this (g ++ "/schedule") = removeReservationToGroup this g.
Proof.
  intros ext this g. reflexivity.
Qed.
